(** * PittWaterHUD: the conditions scoring logic of [app.py]

    A shallow embedding of the decision logic of the dashboard: the stage
    classifier [stage_status], the overflow-risk estimator
    [cso_risk_from_precip], the normalisation of the visibility reading, the
    displayed fog risk and the composite score [composite_score].

    Numbers.  The readings arrive as JSON decimals and are compared with
    short decimal constants; they are modelled as rationals ([Q]), integer
    indices (AQI, WMO weather code) as [Z].  Every [.get(...)] of a key that
    may be missing is an [option].  Using such a value as a number while it
    is [None] raises [TypeError] in Python: comparisons and formatting of
    optional values are therefore written in an error monad, and the guards
    [x and x > c] and [x or 0] are the code's own protection against it. *)

From Stdlib Require Import ZArith QArith Qround Qabs Lqa Lia Bool List.
From Stdlib Require Import Ascii String DecimalString.
From stdpp Require Import gmap strings.

Import ListNotations.
Local Open Scope Q_scope.
Local Open Scope string_scope.

(** ** Python primitives used by the code *)

Module Py.

(** The outcome of evaluating an expression. *)
Inductive result (A : Type) : Type :=
| Ok (a : A)
| TypeError.
Arguments Ok {A} a.
Arguments TypeError {A}.

Definition bind {A B : Type} (m : result A) (k : A -> result B) : result B :=
  match m with
  | Ok a => k a
  | TypeError => TypeError
  end.

(** [x >= y], [x > y], [x < y] on numbers. *)
Definition ge (x y : Q) : bool := Qle_bool y x.
Definition gt (x y : Q) : bool := negb (Qle_bool x y).
Definition lt (x y : Q) : bool := negb (Qle_bool y x).

(** Truth value of an optional number: [None] and zero are falsy. *)
Definition truthy (x : option Q) : bool :=
  match x with
  | None => false
  | Some v => negb (Qeq_bool v 0)
  end.

Definition truthyZ (x : option Z) : bool :=
  match x with
  | None => false
  | Some v => negb (v =? 0)%Z
  end.

(** [x or 0] on an optional number. *)
Definition or_zero (x : option Q) : Q :=
  match x with
  | None => 0
  | Some v => v
  end.

(** Rounding to the nearest integer, ties to even. *)
Definition round_half_even (x : Q) : Z :=
  let f := Qfloor x in
  match ((x - inject_Z f) ?= (1 # 2))%Q with
  | Lt => f
  | Gt => (f + 1)%Z
  | Eq => if Z.even f then f else (f + 1)%Z
  end.

(** [round(x, 1)]. *)
Definition round1 (x : Q) : Q := inject_Z (round_half_even (x * 10)) / 10.

(** [str(n)] for an integer. *)
Definition str_int (n : Z) : string := NilZero.string_of_int (Z.to_int n).

Definition zfill (width : nat) (s : string) : string :=
  match width - String.length s with
  | O => s
  | S k => String.append (string_of_list_ascii (repeat "0"%char (S k))) s
  end%nat.

(** [f"{x:.<digits>f}"]: fixed-point formatting, sign kept on negatives. *)
Definition format_f (digits : nat) (x : Q) : string :=
  let scale := (10 ^ Z.of_nat digits)%Z in
  let n := round_half_even (Qabs x * inject_Z scale) in
  let sign := if lt x 0 then "-" else "" in
  let int_part := str_int (n / scale) in
  match digits with
  | O => sign ++ int_part
  | _ => sign ++ int_part ++ "." ++ zfill digits (str_int (n mod scale))
  end.

(** An optional value used as an operand: [None] is a [TypeError]. *)
Definition number (x : option Q) : result Q :=
  match x with
  | Some v => Ok v
  | None => TypeError
  end.

Definition integer (x : option Z) : result Z :=
  match x with
  | Some v => Ok v
  | None => TypeError
  end.

(** [x > c], [x >= c], [x < c] with [x] optional. *)
Definition gt_ (x : option Q) (c : Q) : result bool :=
  bind (number x) (fun v => Ok (gt v c)).
Definition ge_ (x : option Q) (c : Q) : result bool :=
  bind (number x) (fun v => Ok (ge v c)).
Definition lt_ (x : option Q) (c : Q) : result bool :=
  bind (number x) (fun v => Ok (lt v c)).
Definition gtZ_ (x : option Z) (c : Z) : result bool :=
  bind (integer x) (fun v => Ok (c <? v)%Z).
Definition geZ_ (x : option Z) (c : Z) : result bool :=
  bind (integer x) (fun v => Ok (c <=? v)%Z).

(** [x and e] as a condition: [e] is evaluated only when [x] is truthy. *)
Definition and_ (x : bool) (e : result bool) : result bool :=
  if x then e else Ok false.

(** [f"{x:.<digits>f}"] and [f"{n}"] with an optional value. *)
Definition format_f_ (digits : nat) (x : option Q) : result string :=
  bind (number x) (fun v => Ok (format_f digits v)).
Definition str_int_ (x : option Z) : result string :=
  bind (integer x) (fun v => Ok (str_int v)).

(** [s.lower()] on ASCII letters. *)
Definition lower_ascii (c : ascii) : ascii :=
  let n := nat_of_ascii c in
  if (65 <=? n)%nat && (n <=? 90)%nat then ascii_of_nat (n + 32) else c.

Fixpoint lower (s : string) : string :=
  match s with
  | EmptyString => EmptyString
  | String c t => String (lower_ascii c) (lower t)
  end.

(** [needle in hay] on strings. *)
Fixpoint contains (needle hay : string) : bool :=
  String.prefix needle hay ||
  match hay with
  | EmptyString => false
  | String _ t => contains needle t
  end.

End Py.

Notation "x <- m ;; k" := (Py.bind m (fun x => k))
  (at level 100, m at next level, right associativity).
Abbreviation Ok := Py.Ok.
Abbreviation TypeError := Py.TypeError.

(** ** Configuration *)

Record river_cfg := {
  site_id : string;
  location : string;
  color : string;
  action_stage : Q;
  flood_stage : Q;
  icon : string;
  nwps_id : string;
  upstream_site : option string;
  upstream_name : option string
}.

(** The [RIVERS] table, in its insertion order (the order of iteration). *)
Definition RIVERS : list (string * river_cfg) :=
  [ ("Monongahela",
     {| site_id := "03085000"; location := "Braddock"; color := "#4FC3F7";
        action_stage := 17.0; flood_stage := 25.0; icon := "🌊";
        nwps_id := "BRKP1";
        upstream_site := Some "03075070";
        upstream_name := Some "Youghiogheny at Connellsville" |});
    ("Allegheny",
     {| site_id := "03049640"; location := "Acmetonia"; color := "#81C784";
        action_stage := 18.0; flood_stage := 25.0; icon := "🏔️";
        nwps_id := "PTBP1";
        upstream_site := Some "03049500";
        upstream_name := Some "Allegheny at Natrona" |});
    ("Ohio",
     {| site_id := "03086000"; location := "Sewickley"; color := "#FFB74D";
        action_stage := 16.0; flood_stage := 24.0; icon := "⚡";
        nwps_id := "SEWP1";
        upstream_site := None; upstream_name := None |}) ].

(** ** Helper functions *)

Definition flow_to_speed_mph (flow_cfs : option Q) : option Q :=
  match flow_cfs with
  | None => None
  | Some f => Some (f * 0.000036)
  end.

Definition stage_status (gauge : option Q) (action flood : Q)
  : string * string * string :=
  match gauge with
  | None => ("unknown", "—", "#546e7a")
  | Some g =>
      if Py.ge g flood then
        ("flood", "⚠ FLOOD STAGE (" ++ Py.format_f 2 g ++ " ft)", "#ef5350")
      else if Py.ge g action then
        ("action", "▲ ACTION STAGE (" ++ Py.format_f 2 g ++ " ft)", "#ffa726")
      else if Py.ge g (action - 3) then
        ("elevated", "↑ ELEVATED (" ++ Py.format_f 2 g ++ " ft)", "#ffcc80")
      else
        ("normal", "● NORMAL (" ++ Py.format_f 2 g ++ " ft)", "#66bb6a")
  end.

Definition cso_risk_from_precip (precip_24h_in precip_prob_pct : Q)
  : string * string * string :=
  if Py.ge precip_24h_in 0.5 || Py.ge precip_prob_pct 70 then
    ("HIGH OVERFLOW RISK", "alcosan-warn", "▲")
  else if Py.ge precip_24h_in 0.2 || Py.ge precip_prob_pct 40 then
    ("MODERATE RISK", "alcosan-warn", "◈")
  else
    ("LOW RISK", "alcosan-ok", "●").

(** ** The snapshot read by the scoring code

    The module-level names that [composite_score] and the weather panel
    read, as one record: the result of [fetch_usgs_current], the alert list
    of [fetch_nws_alerts] and the fields taken out of the Open-Meteo
    payload with [.get]. *)

Record river_data := {
  timestamp : option string;
  flow_cfs : option Q;
  gauge_ft : option Q;
  temp_c : option Q
}.

(** The [{}] default of [current_data.get(river, {})]. *)
Definition no_data : river_data :=
  {| timestamp := None; flow_cfs := None; gauge_ft := None; temp_c := None |}.

(** An entry of the list built by [fetch_nws_alerts]; the four texts are
    strings there ([p.get("event", "")] and the like). *)
Record alert := {
  event : string;
  headline : string;
  severity : string;
  expires : string
}.

Record snapshot := {
  current_data : gmap string river_data;
  nws_alerts : list alert;
  wind_speed : option Q;
  weather_code : option Z;
  visibility_m : option Q;
  precip_prob_today : option Q;
  precip_sum_today : option Q;
  aqi_val : option Z
}.

(** [visibility_mi = round(visibility_m / 1609.34, 1) if visibility_m else None] *)
Definition visibility_mi (s : snapshot) : option Q :=
  match visibility_m s with
  | Some m => if Py.truthy (Some m) then Some (Py.round1 (m / 1609.34)) else None
  | None => None
  end.

(** The weather panel's fog risk. *)
Definition fog_risk (s : snapshot) : Py.result string :=
  let visibility_mi := visibility_mi s in
  c <- Py.and_ (Py.truthy visibility_mi) (Py.lt_ visibility_mi 1) ;;
  if c then Ok "HIGH"
  else
    c <- Py.and_ (Py.truthy visibility_mi) (Py.lt_ visibility_mi 3) ;;
    if c then Ok "MODERATE" else Ok "LOW".

(** The overflow risk shown in the header: the first component of
    [cso_risk_from_precip(precip_sum_today or 0, precip_prob_today or 0)]. *)
Definition cso_label (s : snapshot) : string :=
  fst (fst (cso_risk_from_precip (Py.or_zero (precip_sum_today s))
                                 (Py.or_zero (precip_prob_today s)))).

(** ** The composite score *)

Record score := {
  score_label : string;
  score_css : string;
  score_icon : string;
  score_issues : list string;
  score_warnings : list string
}.

(** The two lists being built, [issues] first. *)
Definition factors : Type := list string * list string.

Definition add_issue (msg : string) (st : factors) : factors :=
  ((fst st ++ [msg])%list, snd st).

Definition add_warning (msg : string) (st : factors) : factors :=
  (fst st, (snd st ++ [msg])%list).

(** One turn of the loop over [RIVERS.items()]. *)
Definition stage_rule (rc : string * river_cfg) (s : snapshot) (st : factors)
  : Py.result factors :=
  let river := fst rc in
  let cfg := snd rc in
  let rd := default no_data (current_data s !! river) in
  let g := gauge_ft rd in
  c <- Py.and_ (Py.truthy g) (Py.ge_ g (flood_stage cfg)) ;;
  if c then Ok (add_issue (river ++ " at FLOOD STAGE") st)
  else
    c <- Py.and_ (Py.truthy g) (Py.ge_ g (action_stage cfg)) ;;
    if c then Ok (add_issue (river ++ " at ACTION STAGE") st)
    else Ok st.

(** The whole loop. *)
Definition stage_rules (s : snapshot) (st : factors) : Py.result factors :=
  fold_left (fun acc rc => st <- acc ;; stage_rule rc s st) RIVERS (Ok st).

Definition is_flood_alert (a : alert) : bool :=
  Py.contains "flood" (Py.lower (event a))
  || Py.contains "flash" (Py.lower (event a)).

Definition alert_rule (s : snapshot) (st : factors) : Py.result factors :=
  let flood_alerts := List.filter is_flood_alert (nws_alerts s) in
  match flood_alerts with
  | [] => Ok st
  | _ :: _ => Ok (add_issue "NWS FLOOD ALERT ACTIVE" st)
  end.

Definition wind_rule (s : snapshot) (st : factors) : Py.result factors :=
  let wind_speed := wind_speed s in
  c <- Py.and_ (Py.truthy wind_speed) (Py.gt_ wind_speed 25) ;;
  if c then
    txt <- Py.format_f_ 0 wind_speed ;;
    Ok (add_issue ("DANGEROUS WIND (" ++ txt ++ " mph)") st)
  else
    c <- Py.and_ (Py.truthy wind_speed) (Py.gt_ wind_speed 15) ;;
    if c then
      txt <- Py.format_f_ 0 wind_speed ;;
      Ok (add_warning ("HIGH WIND (" ++ txt ++ " mph)") st)
    else Ok st.

Definition precip_rule (s : snapshot) (st : factors) : Py.result factors :=
  if Py.gt (Py.or_zero (precip_prob_today s)) 70
     || Py.gt (Py.or_zero (precip_sum_today s)) 0.5 then
    Ok (add_warning "RAIN / CSO RISK" st)
  else Ok st.

Definition aqi_rule (s : snapshot) (st : factors) : Py.result factors :=
  let aqi_val := aqi_val s in
  c <- Py.and_ (Py.truthyZ aqi_val) (Py.gtZ_ aqi_val 150) ;;
  if c then
    txt <- Py.str_int_ aqi_val ;;
    Ok (add_issue ("POOR AIR QUALITY (AQI " ++ txt ++ ")") st)
  else
    c <- Py.and_ (Py.truthyZ aqi_val) (Py.gtZ_ aqi_val 100) ;;
    if c then
      txt <- Py.str_int_ aqi_val ;;
      Ok (add_warning ("MODERATE AIR QUALITY (AQI " ++ txt ++ ")") st)
    else Ok st.

Definition fog_rule (s : snapshot) (st : factors) : Py.result factors :=
  let visibility_mi := visibility_mi s in
  c <- Py.and_ (Py.truthy visibility_mi) (Py.lt_ visibility_mi 0.5) ;;
  if c then Ok (add_issue "DENSE FOG — LIMITED VISIBILITY" st)
  else
    c <- Py.and_ (Py.truthy visibility_mi) (Py.lt_ visibility_mi 2) ;;
    if c then Ok (add_warning "REDUCED VISIBILITY / FOG" st)
    else Ok st.

Definition storm_rule (s : snapshot) (st : factors) : Py.result factors :=
  let weather_code := weather_code s in
  c <- Py.and_ (Py.truthyZ weather_code) (Py.geZ_ weather_code 95) ;;
  if c then Ok (add_issue "THUNDERSTORM ACTIVE" st) else Ok st.

(** The final [if issues: ... if warnings: ... return ...]. *)
Definition verdict (st : factors) : score :=
  let '(issues, warnings) := st in
  match issues, warnings with
  | _ :: _, _ =>
      {| score_label := "STAY OFF WATER"; score_css := "score-danger";
         score_icon := "✕"; score_issues := issues;
         score_warnings := warnings |}
  | [], _ :: _ =>
      {| score_label := "USE CAUTION"; score_css := "score-caution";
         score_icon := "⚠"; score_issues := issues;
         score_warnings := warnings |}
  | [], [] =>
      {| score_label := "CONDITIONS FAVORABLE"; score_css := "score-go";
         score_icon := "✓"; score_issues := issues;
         score_warnings := warnings |}
  end.

Definition composite_score (s : snapshot) : Py.result score :=
  st <- stage_rules s ([], []) ;;
  st <- alert_rule s st ;;
  st <- wind_rule s st ;;
  st <- precip_rule s st ;;
  st <- aqi_rule s st ;;
  st <- fog_rule s st ;;
  st <- storm_rule s st ;;
  Ok (verdict st).

(** ** Rules and the inputs they read

    The scoring pass is a sequence of rules, each appending to the two
    lists; [rules] names them in evaluation order, [issues_from] is what a
    rule appends to [issues] on its own, and [reads] says which optional
    input a rule looks at. *)

Inductive rule :=
| StageOf (rc : string * river_cfg)
| AlertRule
| WindRule
| PrecipRule
| AqiRule
| FogRule
| StormRule.

Definition run (r : rule) : snapshot -> factors -> Py.result factors :=
  match r with
  | StageOf rc => stage_rule rc
  | AlertRule => alert_rule
  | WindRule => wind_rule
  | PrecipRule => precip_rule
  | AqiRule => aqi_rule
  | FogRule => fog_rule
  | StormRule => storm_rule
  end.

Definition rules : list rule :=
  (List.map StageOf RIVERS
   ++ [AlertRule; WindRule; PrecipRule; AqiRule; FogRule; StormRule])%list.

Definition issues_from (r : rule) (s : snapshot) : list string :=
  match run r s ([], []) with
  | Py.Ok st => fst st
  | Py.TypeError => []
  end.

Definition warnings_from (r : rule) (s : snapshot) : list string :=
  match run r s ([], []) with
  | Py.Ok st => snd st
  | Py.TypeError => []
  end.

(** A rule returns, and only appends to what it is given. *)
Definition appends (r : rule) (s : snapshot) : Prop :=
  forall st,
    run r s st
    = Ok ((fst st ++ issues_from r s)%list, (snd st ++ warnings_from r s)%list).

(** What all the rules append, in evaluation order. *)
Definition all_issues (s : snapshot) : list string :=
  concat (List.map (fun r => issues_from r s) rules).

Definition all_warnings (s : snapshot) : list string :=
  concat (List.map (fun r => warnings_from r s) rules).

(** The texts a rule can append to [issues], and to [warnings]. *)
Definition issue_shape (r : rule) (m : string) : Prop :=
  match r with
  | StageOf rc =>
      m = fst rc ++ " at FLOOD STAGE" \/ m = fst rc ++ " at ACTION STAGE"
  | AlertRule => m = "NWS FLOOD ALERT ACTIVE"
  | WindRule => exists txt, m = "DANGEROUS WIND (" ++ txt ++ " mph)"
  | PrecipRule => False
  | AqiRule => exists txt, m = "POOR AIR QUALITY (AQI " ++ txt ++ ")"
  | FogRule => m = "DENSE FOG — LIMITED VISIBILITY"
  | StormRule => m = "THUNDERSTORM ACTIVE"
  end.

Definition warning_shape (r : rule) (m : string) : Prop :=
  match r with
  | WindRule => exists txt, m = "HIGH WIND (" ++ txt ++ " mph)"
  | PrecipRule => m = "RAIN / CSO RISK"
  | AqiRule => exists txt, m = "MODERATE AIR QUALITY (AQI " ++ txt ++ ")"
  | FogRule => m = "REDUCED VISIBILITY / FOG"
  | _ => False
  end.

Inductive field :=
| Gauge (river : string)
| Alerts
| WindSpeed
| PrecipProb
| PrecipSum
| Aqi
| Visibility
| WeatherCode.

Definition reads (r : rule) (f : field) : bool :=
  match r, f with
  | StageOf rc, Gauge river => String.eqb (fst rc) river
  | AlertRule, Alerts => true
  | WindRule, WindSpeed => true
  | PrecipRule, PrecipProb => true
  | PrecipRule, PrecipSum => true
  | AqiRule, Aqi => true
  | FogRule, Visibility => true
  | StormRule, WeatherCode => true
  | _, _ => false
  end.

Definition drop_gauge (rd : river_data) : river_data :=
  {| timestamp := timestamp rd; flow_cfs := flow_cfs rd; gauge_ft := None;
     temp_c := temp_c rd |}.

(** The snapshot with one optional input made absent. *)
Definition absent (f : field) (s : snapshot) : snapshot :=
  {| current_data :=
       match f with
       | Gauge river => alter drop_gauge river (current_data s)
       | _ => current_data s
       end;
     nws_alerts := match f with Alerts => [] | _ => nws_alerts s end;
     wind_speed := match f with WindSpeed => None | _ => wind_speed s end;
     weather_code :=
       match f with WeatherCode => None | _ => weather_code s end;
     visibility_m := match f with Visibility => None | _ => visibility_m s end;
     precip_prob_today :=
       match f with PrecipProb => None | _ => precip_prob_today s end;
     precip_sum_today :=
       match f with PrecipSum => None | _ => precip_sum_today s end;
     aqi_val := match f with Aqi => None | _ => aqi_val s end |}.

(** A full outage: nothing from any provider. *)
Definition outage : snapshot :=
  {| current_data := ∅; nws_alerts := []; wind_speed := None;
     weather_code := None; visibility_m := None; precip_prob_today := None;
     precip_sum_today := None; aqi_val := None |}.

(** A snapshot with only a visibility reading, in meters. *)
Definition only_visibility (m : Q) : snapshot :=
  {| current_data := ∅; nws_alerts := []; wind_speed := None;
     weather_code := None; visibility_m := Some m; precip_prob_today := None;
     precip_sum_today := None; aqi_val := None |}.

(** A snapshot with only a wind reading, in mph. *)
Definition only_wind (w : Q) : snapshot :=
  {| current_data := ∅; nws_alerts := []; wind_speed := Some w;
     weather_code := None; visibility_m := None; precip_prob_today := None;
     precip_sum_today := None; aqi_val := None |}.

(** A snapshot with only a gauge height for one river, in feet. *)
Definition only_gauge (river : string) (g : Q) : snapshot :=
  {| current_data :=
       {[ river := {| timestamp := None; flow_cfs := None; gauge_ft := Some g;
                      temp_c := None |} ]};
     nws_alerts := []; wind_speed := None;
     weather_code := None; visibility_m := None; precip_prob_today := None;
     precip_sum_today := None; aqi_val := None |}.

(** A snapshot in which every rule that can raise an issue does. *)
Definition danger : snapshot :=
  let at_26ft :=
    {| timestamp := Some "2024-04-12T08:15:00.000-04:00";
       flow_cfs := Some 98000; gauge_ft := Some 26.0; temp_c := Some 11.5 |} in
  {| current_data :=
       {[ "Monongahela" := at_26ft; "Allegheny" := at_26ft;
          "Ohio" := at_26ft ]};
     nws_alerts :=
       [ {| event := "Flash Flood Warning";
            headline := "Flash Flood Warning issued for Allegheny County";
            severity := "Severe"; expires := "2024-04-12T14:00:00-04:00" |} ];
     wind_speed := Some 30; weather_code := Some 95%Z;
     visibility_m := Some 300; precip_prob_today := Some 90;
     precip_sum_today := Some 1.2; aqi_val := Some 180%Z |}.

(** ** The panels around the score

    The helper functions and module-level expressions that render the
    same readings next to the score. *)

(** More Python primitives: [int(x)], [x % m] on numbers with [m > 0],
    [max], [sep.join(l)] and [l[i]] ([None] is [IndexError]). *)
Definition py_int (x : Q) : Z :=
  if Py.lt x 0 then (- Qfloor (- x))%Z else Qfloor x.

Definition py_mod (x m : Q) : Q := x - m * inject_Z (Qfloor (x / m)).

Definition py_max (x y : Q) : Q := if Py.gt y x then y else x.

Definition py_join (sep : string) (l : list string) : string :=
  String.concat sep l.

Definition py_index {A : Type} (l : list A) (i : Z) : option A :=
  if (i <? 0)%Z then nth_error l (Z.to_nat (Z.of_nat (List.length l) + i))
  else nth_error l (Z.to_nat i).

(** [f"{x:+.<digits>f}"]: the sign is always written. *)
Definition format_plus_f (digits : nat) (x : Q) : string :=
  if Py.lt x 0 then Py.format_f digits x else "+" ++ Py.format_f digits x.

Definition wind_compass (deg : Q) : option string :=
  let dirs := ["N"; "NNE"; "NE"; "ENE"; "E"; "ESE"; "SE"; "SSE"; "S"; "SSW";
               "SW"; "WSW"; "W"; "WNW"; "NW"; "NNW"] in
  py_index dirs (Py.round_half_even (deg / 22.5) mod 16)%Z.

Definition aqi_label (aqi : option Z) : string * string :=
  match aqi with
  | None => ("—", "#546e7a")
  | Some a =>
      if (a <=? 50)%Z then ("GOOD (" ++ Py.str_int a ++ ")", "#66bb6a")
      else if (a <=? 100)%Z then
        ("MODERATE (" ++ Py.str_int a ++ ")", "#ffd54f")
      else if (a <=? 150)%Z then
        ("UNHEALTHY SENSITIVE (" ++ Py.str_int a ++ ")", "#ffa726")
      else if (a <=? 200)%Z then
        ("UNHEALTHY (" ++ Py.str_int a ++ ")", "#ef5350")
      else ("VERY UNHEALTHY (" ++ Py.str_int a ++ ")", "#ab47bc")
  end.

(** [moon_phase(dt)], as a function of [days_since], the whole number of
    days from the reference new moon to [dt]. *)
Definition moon_phase (days_since : Z) : option (Q * string * string) :=
  let phase := py_mod (inject_Z days_since) 29.53059 / 29.53059 in
  let emojis := ["🌑"; "🌒"; "🌒"; "🌓"; "🌔"; "🌔"; "🌕"; "🌖"; "🌖"; "🌗";
                 "🌘"; "🌘"; "🌑"] in
  let names :=
    ["New Moon"; "Waxing Crescent"; "Waxing Crescent"; "First Quarter";
     "Waxing Gibbous"; "Waxing Gibbous"; "Full Moon";
     "Waning Gibbous"; "Waning Gibbous"; "Last Quarter";
     "Waning Crescent"; "Waning Crescent"; "New Moon"] in
  let idx := Z.min (py_int (phase * 12)) 12 in
  match py_index emojis idx, py_index names idx with
  | Some e, Some n => Some (phase, e, n)
  | _, _ => None
  end.

(** The moon panel's percentage and fishing rating. *)
Definition moon_pct_display (moon_phase_val : Q) : Q :=
  if Qle_bool moon_phase_val 0.5 then moon_phase_val * 100
  else (1 - moon_phase_val) * 100.

Definition fishing_moon (moon_phase_val : Q) : string :=
  if (Py.lt 0.1 moon_phase_val && Py.lt moon_phase_val 0.4)
     || (Py.lt 0.6 moon_phase_val && Py.lt moon_phase_val 0.9)
  then "GOOD" else "MODERATE".

(** The header's line under the verdict. *)
Definition detail (sc : score) : string :=
  let all_factors := (score_issues sc ++ score_warnings sc)%list in
  match all_factors with
  | [] => "All systems normal"
  | _ :: _ => py_join " · " (firstn 2 all_factors)
  end.

(** The alert banner: the alerts it shows. *)
Definition is_banner_alert (a : alert) : bool :=
  existsb (fun w => Py.contains w (Py.lower (event a)))
    ["flood"; "storm"; "tornado"; "thunder"].

Definition banner_alerts (s : snapshot) : list alert :=
  match nws_alerts s with
  | [] => []
  | _ :: _ => firstn 3 (List.filter is_banner_alert (nws_alerts s))
  end.

(** The colours of the wind and precipitation panels. *)
Definition wind_color (s : snapshot) : string :=
  if Py.gt (Py.or_zero (wind_speed s)) 25 then "#ef5350"
  else if Py.gt (Py.or_zero (wind_speed s)) 15 then "#ffa726"
  else "#e0f0ff".

Definition precip_color (s : snapshot) : string :=
  if Py.gt (Py.or_zero (precip_prob_today s)) 70 then "#ef5350"
  else if Py.gt (Py.or_zero (precip_prob_today s)) 40 then "#ffa726"
  else "#66bb6a".

Definition WMO_CODES : list (Z * string) :=
  [ (0, "Clear"); (1, "Mainly Clear"); (2, "Partly Cloudy"); (3, "Overcast");
    (45, "Fog"); (48, "Freezing Fog"); (51, "Light Drizzle"); (53, "Drizzle");
    (55, "Heavy Drizzle"); (61, "Light Rain"); (63, "Rain");
    (65, "Heavy Rain"); (71, "Light Snow"); (73, "Snow"); (75, "Heavy Snow");
    (77, "Snow Grains"); (80, "Light Showers"); (81, "Showers");
    (82, "Heavy Showers"); (85, "Light Snow Showers"); (86, "Snow Showers");
    (95, "Thunderstorm"); (96, "Thunderstorm+Hail");
    (99, "Heavy T-Storm+Hail") ]%Z.

(** [WMO_CODES.get(code, default)]. *)
Definition wmo_get (code : Z) (default : string) : string :=
  match List.find (fun kv => (fst kv =? code)%Z) WMO_CODES with
  | Some kv => snd kv
  | None => default
  end.

Definition wx_desc (s : snapshot) : string :=
  match weather_code s with
  | Some c => wmo_get c "—"
  | None => "—"
  end.

(** The river card's stage line, as the loop over [RIVERS.items()] calls
    [stage_status]. *)
Definition card_status (s : snapshot) (rc : string * river_cfg)
  : string * string * string :=
  let rd := default no_data (current_data s !! fst rc) in
  stage_status (gauge_ft rd) (action_stage (snd rc)) (flood_stage (snd rc)).

(** The upstream card's trend line and its colour. *)
Definition trend_str (trend : Q) : string :=
  if Py.gt trend 0.05 then "▲ " ++ format_plus_f 2 trend ++ " ft/hr"
  else if Py.lt trend (-0.05) then "▼ " ++ format_plus_f 2 trend ++ " ft/hr"
  else "► STABLE".

Definition trend_color (trend : Q) : string :=
  if Py.gt trend 0.1 then "#ef5350"
  else if Py.gt trend 0.02 then "#ffa726"
  else "#66bb6a".

(** The water temperature behind the species advice:
    [(mon_temp or 0 + alg_temp or 0) / (2 if (mon_temp and alg_temp) else 1)
     if (mon_temp or alg_temp) else None], where [or] binds weaker than [+]. *)
Definition avg_temp_c (s : snapshot) : Py.result (option Q) :=
  let mon_temp := temp_c (default no_data (current_data s !! "Monongahela")) in
  let alg_temp := temp_c (default no_data (current_data s !! "Allegheny")) in
  if Py.truthy mon_temp || Py.truthy alg_temp then
    num <- (if Py.truthy mon_temp then Py.number mon_temp
            else sum <- (a <- Py.number alg_temp ;; Ok (0 + a)) ;;
                 if Py.truthy (Some sum) then Ok sum else Ok 0) ;;
    Ok (Some (num / (if Py.truthy mon_temp && Py.truthy alg_temp then 2
                     else 1)))
  else Ok None.

Definition avg_temp_f (s : snapshot) : Py.result (option Q) :=
  c <- avg_temp_c s ;;
  if Py.truthy c then v <- Py.number c ;; Ok (Some (v * 9 / 5 + 32))
  else Ok None.

(** The species named by the chosen [species_advice] list. *)
Definition species_advice (s : snapshot) : Py.result (list string) :=
  f <- avg_temp_f s ;;
  if Py.truthy f then
    c <- Py.lt_ f 45 ;;
    if c then Ok ["Walleye & Sauger"; "Channel Catfish"; "Muskie"]
    else
      c <- Py.lt_ f 60 ;;
      if c then Ok ["Smallmouth Bass"; "Walleye"; "White Bass"]
      else Ok ["Smallmouth Bass"; "Flathead Catfish"; "Muskellunge"]
  else
    Ok ["Smallmouth Bass"; "Walleye & Sauger"; "Channel & Flathead Catfish"].

(** Both rivers at the same water temperature, in degrees Celsius. *)
Definition both_temps (t : Q) : snapshot :=
  let at_t := {| timestamp := None; flow_cfs := None; gauge_ft := None;
                 temp_c := Some t |} in
  {| current_data := {[ "Monongahela" := at_t; "Allegheny" := at_t ]};
     nws_alerts := []; wind_speed := None; weather_code := None;
     visibility_m := None; precip_prob_today := None;
     precip_sum_today := None; aqi_val := None |}.

(** ** The 24-hour spark bars *)

(** [min(l)] and [max(l)] of a list with first element [h]. *)
Definition py_min_list (h : Q) (t : list Q) : Q :=
  fold_left (fun m v => if Py.lt v m then v else m) t h.

Definition py_max_list (h : Q) (t : list Q) : Q :=
  fold_left (fun m v => if Py.gt v m then v else m) t h.

(** [rng = mx - mn or 1]. *)
Definition spark_rng (mn mx : Q) : Q :=
  if Py.truthy (Some (mx - mn)) then mx - mn else 1.

(** [max(8, (v-mn)/rng*100)], the height of one bar in per cent. *)
Definition spark_height (mn rng v : Q) : Q :=
  py_max 8 ((v - mn) / rng * 100).

(** The double quote character, as a string. *)
Definition dq : string := String (ascii_of_nat 34) EmptyString.

Definition sparkbars_html (trend : list Q) (color : string) : string :=
  match trend with
  | [] => ""
  | h :: t =>
      let mn := py_min_list h t in
      let mx := py_max_list h t in
      let rng := spark_rng mn mx in
      let bars :=
        py_join ""
          (List.map
             (fun v => "<span style=" ++ dq ++ "height:"
                       ++ Py.format_f 0 (spark_height mn rng v) ++ "%" ++ dq
                       ++ "></span>")
             trend) in
      "<div class=" ++ dq ++ "sparkbars" ++ dq ++ " style=" ++ dq ++ "--c:"
      ++ color ++ dq ++ ">" ++ bars ++ "</div>"
  end.

(** ** Reading the USGS payload

    [fetch_usgs_current] after the HTTP request: the loop over
    [data["value"]["timeSeries"]], for a payload of the documented shape.
    A series is its site code, its parameter code and the samples of
    [series["values"][0]["value"]]; [float] is Python's [float] on a string,
    [None] standing for [ValueError]; the result [None] is the [except]
    branch, which returns [{}]. *)

Record usgs_sample := {
  dateTime : string;
  value : string
}.

Record usgs_series := {
  series_site : string;
  series_param : string;
  series_values : list usgs_sample
}.

(** [next((k for k, v in RIVERS.items() if v["site_id"] == site), None)] *)
Definition river_of_site (site : string) : option string :=
  match List.find (fun rc => String.eqb (site_id (snd rc)) site) RIVERS with
  | Some rc => Some (fst rc)
  | None => None
  end.

Definition set_timestamp (t : string) (rd : river_data) : river_data :=
  {| timestamp := Some t; flow_cfs := flow_cfs rd; gauge_ft := gauge_ft rd;
     temp_c := temp_c rd |}.

Definition set_flow_cfs (v : Q) (rd : river_data) : river_data :=
  {| timestamp := timestamp rd; flow_cfs := Some v; gauge_ft := gauge_ft rd;
     temp_c := temp_c rd |}.

Definition set_gauge_ft (v : Q) (rd : river_data) : river_data :=
  {| timestamp := timestamp rd; flow_cfs := flow_cfs rd; gauge_ft := Some v;
     temp_c := temp_c rd |}.

Definition set_temp_c (v : Q) (rd : river_data) : river_data :=
  {| timestamp := timestamp rd; flow_cfs := flow_cfs rd; gauge_ft := gauge_ft rd;
     temp_c := Some v |}.

(** The parameter codes the loop stores: flow, gauge height, temperature. *)
Definition known_param (p : string) : Prop :=
  p = "00060" \/ p = "00065" \/ p = "00010".

Section Usgs.

Variable float : string -> option Q.

(** One turn of the loop; [None] when [float] raises. *)
Definition usgs_step (results : gmap string river_data) (series : usgs_series)
  : option (gmap string river_data) :=
  match last (series_values series) with
  | None => Some results
  | Some latest =>
      if String.eqb (value latest) "-999999" then Some results
      else
        match river_of_site (series_site series) with
        | None => Some results
        | Some key =>
            if String.eqb key "" then Some results
            else
              let rd := set_timestamp (dateTime latest)
                          (default no_data (results !! key)) in
              let results := <[key := rd]> results in
              let store (set : Q -> river_data -> river_data) :=
                match float (value latest) with
                | Some v => Some (<[key := set v rd]> results)
                | None => None
                end in
              if String.eqb (series_param series) "00060" then
                store set_flow_cfs
              else if String.eqb (series_param series) "00065" then
                store set_gauge_ft
              else if String.eqb (series_param series) "00010" then
                store set_temp_c
              else Some results
        end
  end.

Definition usgs_loop (payload : list usgs_series)
    (results : gmap string river_data) : option (gmap string river_data) :=
  fold_left
    (fun acc series =>
       match acc with
       | Some results => usgs_step results series
       | None => None
       end)
    payload (Some results).

(** The [current_data] the module gets from [fetch_usgs_current()]. *)
Definition usgs_current_data (payload : list usgs_series)
  : gmap string river_data :=
  default ∅ (usgs_loop payload ∅).

End Usgs.

(** A small payload: a gauge height for the Ohio, a "no data" mark for
    the Monongahela and an unreadable temperature for the Allegheny, with
    [float] on the values that occur in it. *)
Definition ohio_gauge_series : usgs_series :=
  {| series_site := "03086000"; series_param := "00065";
     series_values :=
       [ {| dateTime := "2024-04-12T08:00:00.000-04:00"; value := "23.95" |};
         {| dateTime := "2024-04-12T08:15:00.000-04:00"; value := "24.10" |} ]
  |}.

Definition no_data_series : usgs_series :=
  {| series_site := "03085000"; series_param := "00060";
     series_values :=
       [ {| dateTime := "2024-04-12T08:15:00.000-04:00";
            value := "-999999" |} ] |}.

Definition bad_temp_series : usgs_series :=
  {| series_site := "03049640"; series_param := "00010";
     series_values :=
       [ {| dateTime := "2024-04-12T08:15:00.000-04:00"; value := "Ice" |} ]
  |}.

Definition sample_float (text : string) : option Q :=
  if String.eqb text "24.10" then Some 24.10
  else if String.eqb text "23.95" then Some 23.95
  else if String.eqb text "-999999" then Some (-999999)
  else None.

(** The severity order of the three verdicts. *)
Definition verdict_rank (label : string) : nat :=
  if String.eqb label "STAY OFF WATER" then 2
  else if String.eqb label "USE CAUTION" then 1
  else 0.

(** The severity order of the tiers [stage_status] returns. *)
Definition tier_rank (tier : string) : nat :=
  if String.eqb tier "flood" then 4
  else if String.eqb tier "action" then 3
  else if String.eqb tier "elevated" then 2
  else if String.eqb tier "normal" then 1
  else 0.

(** A snapshot with only the day's precipitation forecast. *)
Definition only_precip (prob sum : Q) : snapshot :=
  {| current_data := ∅; nws_alerts := []; wind_speed := None;
     weather_code := None; visibility_m := None;
     precip_prob_today := Some prob; precip_sum_today := Some sum;
     aqi_val := None |}.

(** * Properties *)

Example format_f_samples :
  Py.format_f 2 (1234 # 100) = "12.34" /\ Py.format_f 0 (305 # 10) = "30"
  /\ Py.format_f 0 (-4 # 10) = "-0" /\ Py.format_f 2 (2505 # 1000) = "2.50"
  /\ Py.format_f 2 17 = "17.00" /\ Py.round1 (50 / 1609.34) == 0
  /\ Py.round1 (2900 / 1609.34) == 1.8.
Proof. vm_compute. repeat split; reflexivity. Qed.

Example composite_score_samples :
  composite_score outage
  = Ok {| score_label := "CONDITIONS FAVORABLE"; score_css := "score-go";
          score_icon := "✓"; score_issues := []; score_warnings := [] |}
  /\ composite_score (only_wind 20)
     = Ok {| score_label := "USE CAUTION"; score_css := "score-caution";
             score_icon := "⚠"; score_issues := [];
             score_warnings := ["HIGH WIND (20 mph)"] |}
  /\ composite_score (only_gauge "Ohio" 24)
     = Ok {| score_label := "STAY OFF WATER"; score_css := "score-danger";
             score_icon := "✕"; score_issues := ["Ohio at FLOOD STAGE"];
             score_warnings := [] |}.
Proof. vm_compute. repeat split; reflexivity. Qed.

(** ** Comparisons and truth values *)

Section Numbers.

Variables x y : Q.

Lemma ge_true : Py.ge x y = true <-> y <= x.
Proof. unfold Py.ge. apply Qle_bool_iff. Qed.

Lemma ge_false : Py.ge x y = false <-> x < y.
Proof.
  unfold Py.ge. rewrite <- not_true_iff_false, Qle_bool_iff.
  split; [apply Qnot_le_lt | apply Qlt_not_le].
Qed.

Lemma gt_true : Py.gt x y = true <-> y < x.
Proof.
  unfold Py.gt. rewrite negb_true_iff, <- not_true_iff_false, Qle_bool_iff.
  split; [apply Qnot_le_lt | apply Qlt_not_le].
Qed.

Lemma gt_false : Py.gt x y = false <-> x <= y.
Proof. unfold Py.gt. rewrite negb_false_iff. apply Qle_bool_iff. Qed.

Lemma lt_true : Py.lt x y = true <-> x < y.
Proof.
  unfold Py.lt. rewrite negb_true_iff, <- not_true_iff_false, Qle_bool_iff.
  split; [apply Qnot_le_lt | apply Qlt_not_le].
Qed.

Lemma lt_false : Py.lt x y = false <-> y <= x.
Proof. unfold Py.lt. rewrite negb_false_iff. apply Qle_bool_iff. Qed.

Lemma truthy_true : Py.truthy (Some x) = true <-> ~ x == 0.
Proof.
  simpl. rewrite negb_true_iff, <- not_true_iff_false, Qeq_bool_iff.
  reflexivity.
Qed.

Lemma truthy_false : Py.truthy (Some x) = false <-> x == 0.
Proof. simpl. rewrite negb_false_iff. apply Qeq_bool_iff. Qed.

End Numbers.

(** Turn every boolean comparison in the context into its proposition. *)
Ltac reflect_cmp :=
  repeat match goal with
    | H : Py.ge _ _ = true |- _ => apply ge_true in H
    | H : Py.ge _ _ = false |- _ => apply ge_false in H
    | H : Py.gt _ _ = true |- _ => apply gt_true in H
    | H : Py.gt _ _ = false |- _ => apply gt_false in H
    | H : Py.lt _ _ = true |- _ => apply lt_true in H
    | H : Py.lt _ _ = false |- _ => apply lt_false in H
    | H : Py.truthy (Some _) = true |- _ => apply truthy_true in H
    | H : Py.truthy (Some _) = false |- _ => apply truthy_false in H
    end.

(** ** Every rule returns, and only appends *)

Ltac rule_cases :=
  repeat match goal with
    | |- context [match ?o with Some _ => _ | None => _ end] =>
        destruct o eqn:?; simpl
    | |- context [if ?b then _ else _] => destruct b eqn:?; simpl
    | |- context [match ?l with [] => _ | _ :: _ => _ end] =>
        destruct l eqn:?; simpl
    end.

Lemma stage_rule_appends rc s : appends (StageOf rc) s.
Proof.
  intros [i w]. unfold issues_from, warnings_from. simpl.
  unfold stage_rule, Py.and_, Py.ge_, Py.number, Py.bind, add_issue.
  simpl. rule_cases; rewrite ?app_nil_r; reflexivity.
Qed.

Lemma alert_rule_appends s : appends AlertRule s.
Proof.
  intros [i w]. unfold issues_from, warnings_from. simpl.
  unfold alert_rule, add_issue. simpl.
  rule_cases; rewrite ?app_nil_r; reflexivity.
Qed.

Lemma wind_rule_appends s : appends WindRule s.
Proof.
  intros [i w]. unfold issues_from, warnings_from. simpl.
  unfold wind_rule, Py.and_, Py.gt_, Py.format_f_, Py.number, Py.bind,
    add_issue, add_warning.
  simpl. rule_cases; rewrite ?app_nil_r; reflexivity.
Qed.

Lemma precip_rule_appends s : appends PrecipRule s.
Proof.
  intros [i w]. unfold issues_from, warnings_from. simpl.
  unfold precip_rule, add_warning. simpl.
  rule_cases; rewrite ?app_nil_r; reflexivity.
Qed.

Lemma aqi_rule_appends s : appends AqiRule s.
Proof.
  intros [i w]. unfold issues_from, warnings_from. simpl.
  unfold aqi_rule, Py.and_, Py.gtZ_, Py.str_int_, Py.integer, Py.bind,
    add_issue, add_warning.
  simpl. rule_cases; rewrite ?app_nil_r; reflexivity.
Qed.

Lemma fog_rule_appends s : appends FogRule s.
Proof.
  intros [i w]. unfold issues_from, warnings_from. simpl.
  unfold fog_rule, Py.and_, Py.lt_, Py.number, Py.bind, add_issue,
    add_warning.
  simpl. destruct (visibility_mi s) as [v|]; simpl;
    rule_cases; rewrite ?app_nil_r; reflexivity.
Qed.

Lemma storm_rule_appends s : appends StormRule s.
Proof.
  intros [i w]. unfold issues_from, warnings_from. simpl.
  unfold storm_rule, Py.and_, Py.geZ_, Py.integer, Py.bind, add_issue.
  simpl. rule_cases; rewrite ?app_nil_r; reflexivity.
Qed.

Lemma rule_appends r s : appends r s.
Proof.
  destruct r;
    auto using stage_rule_appends, alert_rule_appends, wind_rule_appends,
      precip_rule_appends, aqi_rule_appends, fog_rule_appends,
      storm_rule_appends.
Qed.

Lemma composite_score_unfold s :
  composite_score s = Ok (verdict (all_issues s, all_warnings s)).
Proof.
  unfold composite_score, stage_rules, all_issues, all_warnings, rules, RIVERS.
  cbn [fold_left List.map app concat].
  cbn [Py.bind].
  repeat match goal with
    | |- context [Py.bind (?f s ?st) _] =>
        lazymatch f with
        | stage_rule ?rc => rewrite (rule_appends (StageOf rc) s st : f s st = _)
        | alert_rule => rewrite (rule_appends AlertRule s st : f s st = _)
        | wind_rule => rewrite (rule_appends WindRule s st : f s st = _)
        | precip_rule => rewrite (rule_appends PrecipRule s st : f s st = _)
        | aqi_rule => rewrite (rule_appends AqiRule s st : f s st = _)
        | fog_rule => rewrite (rule_appends FogRule s st : f s st = _)
        | storm_rule => rewrite (rule_appends StormRule s st : f s st = _)
        end; cbn [Py.bind fst snd]
    end.
  cbn [app]. rewrite !app_nil_r, <- !app_assoc. reflexivity.
Qed.

Lemma composite_score_lists s :
  exists r, composite_score s = Ok r
            /\ score_issues r = all_issues s
            /\ score_warnings r = all_warnings s.
Proof.
  rewrite composite_score_unfold. eexists; split; [reflexivity|].
  unfold verdict. destruct (all_issues s), (all_warnings s); auto.
Qed.

(** ** The final reduction *)

Lemma verdict_label st :
  let r := verdict st in
  (score_label r = "STAY OFF WATER" <-> score_issues r <> [])
  /\ (score_label r = "USE CAUTION"
      <-> score_issues r = [] /\ score_warnings r <> [])
  /\ (score_label r = "CONDITIONS FAVORABLE"
      <-> score_issues r = [] /\ score_warnings r = []).
Proof.
  destruct st as [[|i issues] [|w warnings]]; cbn;
    repeat split; intros; try discriminate; try tauto;
    repeat match goal with H : _ /\ _ |- _ => destruct H end;
    try discriminate; congruence.
Qed.

(** C1: for every snapshot [composite_score] returns, and its label is
    "STAY OFF WATER" exactly when the returned [issues] is non-empty,
    "USE CAUTION" exactly when [issues] is empty and [warnings] is not, and
    "CONDITIONS FAVORABLE" exactly when both lists are empty. *)
Theorem composite_score_verdict (s : snapshot) :
  exists r,
    composite_score s = Ok r
    /\ (score_label r = "STAY OFF WATER" <-> score_issues r <> [])
    /\ (score_label r = "USE CAUTION"
        <-> score_issues r = [] /\ score_warnings r <> [])
    /\ (score_label r = "CONDITIONS FAVORABLE"
        <-> score_issues r = [] /\ score_warnings r = []).
Proof.
  rewrite composite_score_unfold. eexists. split; [reflexivity|].
  apply verdict_label.
Qed.

(** ** The stage classifier *)

(** C5: [stage_status] with no stage height is "unknown" with label "—"
    whatever the thresholds; with a stage height [g] the tier is "flood"
    when [g >= flood], else "action" when [g >= action], else "elevated"
    when [g >= action - 3], else "normal", and never anything else.  (This
    holds for every pair of thresholds, so for those with
    [action < flood].) *)
Theorem stage_status_tier (action flood : Q) :
  stage_status None action flood = ("unknown", "—", "#546e7a")
  /\ forall g : Q,
      let tier := fst (fst (stage_status (Some g) action flood)) in
      (tier = "flood" \/ tier = "action" \/ tier = "elevated"
       \/ tier = "normal")
      /\ (tier = "flood" <-> flood <= g)
      /\ (tier = "action" <-> g < flood /\ action <= g)
      /\ (tier = "elevated" <-> g < flood /\ g < action /\ action - 3 <= g)
      /\ (tier = "normal" <-> g < flood /\ g < action /\ g < action - 3).
Proof.
  split; [reflexivity|]. intros g. unfold stage_status.
  destruct (Py.ge g flood) eqn:Hf;
    [| destruct (Py.ge g action) eqn:Ha;
       [| destruct (Py.ge g (action - 3)) eqn:He ] ];
    cbn; reflect_cmp;
    repeat split; intros;
    repeat match goal with H : _ /\ _ |- _ => destruct H end;
    first [ reflexivity | discriminate | assumption | exfalso; lra
          | tauto ].
Qed.

(** ** The overflow-risk estimator *)

(** C9: [cso_risk_from_precip] is "HIGH OVERFLOW RISK" exactly when the
    24h sum is at least 0.5 in or the probability at least 70 %; otherwise
    "MODERATE RISK" exactly when the sum is at least 0.2 in or the
    probability at least 40 %; otherwise "LOW RISK".  A sum of 0.6 in with
    a probability of 10 % is high. *)
Theorem cso_risk_levels (precip_24h_in precip_prob_pct : Q) :
  let level := fst (fst (cso_risk_from_precip precip_24h_in precip_prob_pct)) in
  (level = "HIGH OVERFLOW RISK"
   <-> 0.5 <= precip_24h_in \/ 70 <= precip_prob_pct)
  /\ (level = "MODERATE RISK"
      <-> (precip_24h_in < 0.5 /\ precip_prob_pct < 70)
          /\ (0.2 <= precip_24h_in \/ 40 <= precip_prob_pct))
  /\ (level = "LOW RISK" <-> precip_24h_in < 0.2 /\ precip_prob_pct < 40)
  /\ cso_risk_from_precip 0.6 10
     = ("HIGH OVERFLOW RISK", "alcosan-warn", "▲").
Proof.
  unfold cso_risk_from_precip.
  destruct (Py.ge precip_24h_in 0.5) eqn:H1,
           (Py.ge precip_prob_pct 70) eqn:H2,
           (Py.ge precip_24h_in 0.2) eqn:H3,
           (Py.ge precip_prob_pct 40) eqn:H4;
    cbn; reflect_cmp;
    repeat split; intros;
    repeat match goal with
      | H : _ /\ _ |- _ => destruct H
      | H : _ \/ _ |- _ => destruct H
      end;
    first [ reflexivity | discriminate | lra | exfalso; lra
          | left; lra | right; lra ].
Qed.

(** ** What each rule appends *)

Lemma in_all_issues s m :
  In m (all_issues s) <-> exists r, In r rules /\ In m (issues_from r s).
Proof.
  unfold all_issues. rewrite in_concat. split.
  - intros (l & Hl & Hm). apply in_map_iff in Hl as (r & <- & Hr). eauto.
  - intros (r & Hr & Hm). exists (issues_from r s). split; [|assumption].
    apply in_map_iff. eauto.
Qed.

Lemma in_all_warnings s m :
  In m (all_warnings s) <-> exists r, In r rules /\ In m (warnings_from r s).
Proof.
  unfold all_warnings. rewrite in_concat. split.
  - intros (l & Hl & Hm). apply in_map_iff in Hl as (r & <- & Hr). eauto.
  - intros (r & Hr & Hm). exists (warnings_from r s). split; [|assumption].
    apply in_map_iff. eauto.
Qed.

Ltac unfold_rule :=
  unfold issues_from, warnings_from, run, stage_rule, alert_rule, wind_rule,
    precip_rule, aqi_rule, fog_rule, storm_rule, Py.and_, Py.gt_, Py.ge_,
    Py.lt_, Py.gtZ_, Py.geZ_, Py.format_f_, Py.str_int_, Py.number,
    Py.integer, Py.bind, add_issue, add_warning.

Ltac in_singleton :=
  repeat match goal with
    | H : In _ [] |- _ => destruct H
    | H : In _ [_] |- _ => destruct H as [<- | []]
    | H : False |- _ => destruct H
    | H : _ = _ \/ False |- _ => destruct H as [<- | []]
    end.

Lemma issues_from_shape r s m : In m (issues_from r s) -> issue_shape r m.
Proof.
  destruct r; unfold_rule; cbn [fst snd app];
    try destruct (visibility_mi s); rule_cases; intros Hin; in_singleton;
    cbn; eauto.
Qed.

Lemma warnings_from_shape r s m :
  In m (warnings_from r s) -> warning_shape r m.
Proof.
  destruct r; unfold_rule; cbn [fst snd app];
    try destruct (visibility_mi s); rule_cases; intros Hin; in_singleton;
    cbn; eauto.
Qed.

Lemma RIVERS_thresholds rc :
  In rc RIVERS ->
  0 < action_stage (snd rc) /\ action_stage (snd rc) < flood_stage (snd rc).
Proof.
  intros [<- | [<- | [<- | []]]]; cbn; split; reflexivity.
Qed.

Lemma stage_rule_eval rc s st g :
  gauge_ft (default no_data (current_data s !! fst rc)) = Some g ->
  0 < action_stage (snd rc) -> 0 < flood_stage (snd rc) ->
  stage_rule rc s st
  = Ok (if Py.ge g (flood_stage (snd rc)) then
          add_issue (fst rc ++ " at FLOOD STAGE") st
        else if Py.ge g (action_stage (snd rc)) then
          add_issue (fst rc ++ " at ACTION STAGE") st
        else st).
Proof.
  intros Hg Ha Hf. unfold stage_rule. rewrite Hg. unfold_rule.
  destruct (Py.truthy (Some g)) eqn:Ht,
           (Py.ge g (flood_stage (snd rc))) eqn:H1,
           (Py.ge g (action_stage (snd rc))) eqn:H2;
    reflect_cmp; first [reflexivity | exfalso; lra].
Qed.

Lemma stage_rule_silent rc s st :
  gauge_ft (default no_data (current_data s !! fst rc)) = None ->
  stage_rule rc s st = Ok st.
Proof. intros Hg. unfold stage_rule. rewrite Hg. reflexivity. Qed.

Lemma wind_rule_eval s st w :
  wind_speed s = Some w ->
  wind_rule s st
  = Ok (if Py.gt w 25 then
          add_issue ("DANGEROUS WIND (" ++ Py.format_f 0 w ++ " mph)") st
        else if Py.gt w 15 then
          add_warning ("HIGH WIND (" ++ Py.format_f 0 w ++ " mph)") st
        else st).
Proof.
  intros Hw. unfold wind_rule. rewrite Hw. unfold_rule.
  destruct (Py.truthy (Some w)) eqn:Ht,
           (Py.gt w 25) eqn:H1, (Py.gt w 15) eqn:H2;
    reflect_cmp; first [reflexivity | exfalso; lra].
Qed.

Lemma wind_rule_silent s st : wind_speed s = None -> wind_rule s st = Ok st.
Proof. intros Hw. unfold wind_rule. rewrite Hw. reflexivity. Qed.

Lemma fog_rule_eval s st v :
  visibility_mi s = Some v -> ~ v == 0 ->
  fog_rule s st
  = Ok (if Py.lt v 0.5 then add_issue "DENSE FOG — LIMITED VISIBILITY" st
        else if Py.lt v 2 then add_warning "REDUCED VISIBILITY / FOG" st
        else st).
Proof.
  intros Hv Hnz. unfold fog_rule. rewrite Hv. unfold_rule.
  apply truthy_true in Hnz. rewrite Hnz.
  destruct (Py.lt v 0.5), (Py.lt v 2); reflexivity.
Qed.

Lemma fog_rule_silent s st : visibility_mi s = None -> fog_rule s st = Ok st.
Proof. intros Hv. unfold fog_rule. rewrite Hv. reflexivity. Qed.

Lemma fog_rule_zero s st v :
  visibility_mi s = Some v -> v == 0 -> fog_rule s st = Ok st.
Proof.
  intros Hv Hz. unfold fog_rule. rewrite Hv. unfold_rule.
  apply truthy_false in Hz. rewrite Hz. reflexivity.
Qed.

Lemma alert_rule_silent s st : nws_alerts s = [] -> alert_rule s st = Ok st.
Proof. intros H. unfold alert_rule. rewrite H. reflexivity. Qed.

Lemma precip_rule_silent s st :
  precip_prob_today s = None -> precip_sum_today s = None ->
  precip_rule s st = Ok st.
Proof. intros H1 H2. unfold precip_rule. rewrite H1, H2. reflexivity. Qed.

Lemma aqi_rule_silent s st : aqi_val s = None -> aqi_rule s st = Ok st.
Proof. intros H. unfold aqi_rule. rewrite H. reflexivity. Qed.

Lemma storm_rule_silent s st :
  weather_code s = None -> storm_rule s st = Ok st.
Proof. intros H. unfold storm_rule. rewrite H. reflexivity. Qed.

Lemma visibility_mi_absent s : visibility_m s = None -> visibility_mi s = None.
Proof. intros H. unfold visibility_mi. rewrite H. reflexivity. Qed.

(** ** Full outage *)

(** C3: when no waterway has a gauge reading, the alert list is empty and
    wind speed, precipitation probability and sum, AQI, visibility and
    weather code are all absent, [composite_score] returns
    "CONDITIONS FAVORABLE" with [issues = []] and [warnings = []]. *)
Theorem full_outage_favorable (s : snapshot) :
  (forall river cfg,
      In (river, cfg) RIVERS ->
      gauge_ft (default no_data (current_data s !! river)) = None) ->
  nws_alerts s = [] ->
  wind_speed s = None ->
  precip_prob_today s = None ->
  precip_sum_today s = None ->
  aqi_val s = None ->
  visibility_m s = None ->
  weather_code s = None ->
  composite_score s
  = Ok {| score_label := "CONDITIONS FAVORABLE"; score_css := "score-go";
          score_icon := "✓"; score_issues := []; score_warnings := [] |}.
Proof.
  intros Hg Ha Hw Hpp Hps Haq Hv Hc.
  unfold composite_score, stage_rules, RIVERS. cbn [fold_left Py.bind].
  repeat (rewrite stage_rule_silent by (eapply Hg; cbn; eauto);
          cbn [Py.bind]).
  rewrite alert_rule_silent by assumption. cbn [Py.bind].
  rewrite wind_rule_silent by assumption. cbn [Py.bind].
  rewrite precip_rule_silent by assumption. cbn [Py.bind].
  rewrite aqi_rule_silent by assumption. cbn [Py.bind].
  rewrite fog_rule_silent by auto using visibility_mi_absent. cbn [Py.bind].
  rewrite storm_rule_silent by assumption. reflexivity.
Qed.

Lemma full_outage_favorable_witness :
  composite_score outage
  = Ok {| score_label := "CONDITIONS FAVORABLE"; score_css := "score-go";
          score_icon := "✓"; score_issues := []; score_warnings := [] |}.
Proof.
  apply (full_outage_favorable outage); reflexivity.
Defined.

(** ** Waterway stages *)

Lemma stage_issue_in s rc m :
  In rc RIVERS -> issue_shape (StageOf rc) m ->
  In m (all_issues s) <-> In m (issues_from (StageOf rc) s).
Proof.
  intros Hrc Hm. rewrite in_all_issues. split.
  - intros (r & Hr & Hin). pose proof (issues_from_shape _ _ _ Hin) as Hs.
    unfold rules, RIVERS in Hr. cbn [List.map app] in Hr.
    destruct Hrc as [<- | [<- | [<- | []]]];
      destruct Hm as [-> | ->];
      repeat (destruct Hr as [<- | Hr]); try destruct Hr;
      cbn in Hs;
      repeat match goal with
        | H : _ \/ _ |- _ => destruct H
        | H : exists _, _ |- _ => destruct H
        end;
      solve [ assumption | discriminate | contradiction ].
  - intros Hin. exists (StageOf rc). split; [|assumption].
    unfold rules. apply in_or_app. left. apply in_map. assumption.
Qed.

Lemma stage_issues_eval s rc g :
  In rc RIVERS ->
  gauge_ft (default no_data (current_data s !! fst rc)) = Some g ->
  issues_from (StageOf rc) s
  = (if Py.ge g (flood_stage (snd rc)) then [fst rc ++ " at FLOOD STAGE"]
     else if Py.ge g (action_stage (snd rc)) then [fst rc ++ " at ACTION STAGE"]
     else [])
  /\ warnings_from (StageOf rc) s = [].
Proof.
  intros Hrc Hg. destruct (RIVERS_thresholds rc Hrc) as [Ha Hf].
  unfold issues_from, warnings_from. cbn [run].
  rewrite (stage_rule_eval rc s _ g Hg Ha) by lra.
  destruct (Py.ge g (flood_stage (snd rc))),
           (Py.ge g (action_stage (snd rc))); split; reflexivity.
Qed.

(** C4: for a configured waterway with a stage reading [g], the loop turn
    appends "<river> at FLOOD STAGE" to [issues] when [g >= flood_stage],
    otherwise "<river> at ACTION STAGE" when [g >= action_stage] (both
    bounds included), and nothing when [g < action_stage]; it never touches
    [warnings]; and the flood (action) text is in the issues that
    [composite_score] returns exactly in the first (second) case. *)
Theorem stage_rule_tiers (s : snapshot) (river : string) (cfg : river_cfg)
    (g : Q) :
  In (river, cfg) RIVERS ->
  gauge_ft (default no_data (current_data s !! river)) = Some g ->
  (forall st,
      (flood_stage cfg <= g ->
       stage_rule (river, cfg) s st
       = Ok (add_issue (river ++ " at FLOOD STAGE") st))
      /\ (g < flood_stage cfg -> action_stage cfg <= g ->
          stage_rule (river, cfg) s st
          = Ok (add_issue (river ++ " at ACTION STAGE") st))
      /\ (g < action_stage cfg -> stage_rule (river, cfg) s st = Ok st))
  /\ warnings_from (StageOf (river, cfg)) s = []
  /\ exists r,
      composite_score s = Ok r
      /\ (In (river ++ " at FLOOD STAGE") (score_issues r)
          <-> flood_stage cfg <= g)
      /\ (In (river ++ " at ACTION STAGE") (score_issues r)
          <-> g < flood_stage cfg /\ action_stage cfg <= g).
Proof.
  intros Hrc Hg.
  destruct (RIVERS_thresholds _ Hrc) as [Ha Hf]. cbn [fst snd] in Ha, Hf.
  destruct (stage_issues_eval s (river, cfg) g Hrc Hg) as [Hi Hw].
  cbn [fst snd] in Hi.
  split; [|split; [exact Hw|]].
  - intros st. rewrite (stage_rule_eval (river, cfg) s st g Hg Ha)
      by (cbn [snd]; lra).
    cbn [fst snd].
    destruct (Py.ge g (flood_stage cfg)) eqn:H1,
             (Py.ge g (action_stage cfg)) eqn:H2;
      reflect_cmp; repeat split; intros;
      first [reflexivity | exfalso; lra].
  - destruct (composite_score_lists s) as (r & Hr & Hri & _).
    exists r. split; [exact Hr|]. rewrite Hri.
    rewrite !(stage_issue_in s (river, cfg)) by (cbn; auto).
    rewrite Hi.
    assert (river ++ " at FLOOD STAGE" <> river ++ " at ACTION STAGE") as Hne
      by (destruct Hrc as [E | [E | [E | []]]]; inversion E; discriminate).
    destruct (Py.ge g (flood_stage cfg)) eqn:H1,
             (Py.ge g (action_stage cfg)) eqn:H2;
      reflect_cmp; cbn [In]; repeat split; intros;
      repeat match goal with
        | H : _ /\ _ |- _ => destruct H
        | H : _ \/ _ |- _ => destruct H
        | H : False |- _ => destruct H
        end;
      first [ assumption | lra | exfalso; lra | left; reflexivity
            | exfalso; congruence ].
Qed.

Lemma stage_rule_tiers_witness :
  exists r,
    composite_score (only_gauge "Monongahela" 25.0) = Ok r
    /\ (In "Monongahela at FLOOD STAGE" (score_issues r) <-> 25.0 <= 25.0).
Proof.
  destruct (stage_rule_tiers (only_gauge "Monongahela" 25.0) "Monongahela"
              {| site_id := "03085000"; location := "Braddock";
                 color := "#4FC3F7"; action_stage := 17.0;
                 flood_stage := 25.0; icon := "🌊"; nwps_id := "BRKP1";
                 upstream_site := Some "03075070";
                 upstream_name := Some "Youghiogheny at Connellsville" |}
              25.0)
    as (_ & _ & r & Hr & Hflood & _).
  - cbn. left. reflexivity.
  - reflexivity.
  - exists r. split; [exact Hr | exact Hflood].
Defined.

(** ** Wind *)

Ltac split_rules H :=
  unfold rules, RIVERS in H; cbn [List.map app] in H;
  repeat (destruct H as [<- | H]); try destruct H.

Ltac split_shapes :=
  repeat match goal with
    | H : _ \/ _ |- _ => destruct H
    | H : exists _, _ |- _ => destruct H
    end.

Lemma wind_issue_in s txt :
  In ("DANGEROUS WIND (" ++ txt ++ " mph)") (all_issues s)
  <-> In ("DANGEROUS WIND (" ++ txt ++ " mph)") (issues_from WindRule s).
Proof.
  rewrite in_all_issues. split.
  - intros (r & Hr & Hin). pose proof (issues_from_shape _ _ _ Hin) as Hs.
    split_rules Hr; cbn in Hs; split_shapes;
      solve [ assumption | discriminate | contradiction ].
  - intros Hin. exists WindRule. split; [|assumption].
    unfold rules. apply in_or_app. right. cbn. auto.
Qed.

Lemma wind_warning_in s txt :
  In ("HIGH WIND (" ++ txt ++ " mph)") (all_warnings s)
  <-> In ("HIGH WIND (" ++ txt ++ " mph)") (warnings_from WindRule s).
Proof.
  rewrite in_all_warnings. split.
  - intros (r & Hr & Hin). pose proof (warnings_from_shape _ _ _ Hin) as Hs.
    split_rules Hr; cbn in Hs; split_shapes;
      solve [ assumption | discriminate | contradiction ].
  - intros Hin. exists WindRule. split; [|assumption].
    unfold rules. apply in_or_app. right. cbn. auto.
Qed.

Lemma wind_lists_eval s w :
  wind_speed s = Some w ->
  issues_from WindRule s
  = (if Py.gt w 25 then ["DANGEROUS WIND (" ++ Py.format_f 0 w ++ " mph)"]
     else [])
  /\ warnings_from WindRule s
     = (if Py.gt w 25 then []
        else if Py.gt w 15 then ["HIGH WIND (" ++ Py.format_f 0 w ++ " mph)"]
        else []).
Proof.
  intros Hw. unfold issues_from, warnings_from. cbn [run].
  rewrite (wind_rule_eval s _ w Hw).
  destruct (Py.gt w 25), (Py.gt w 15); split; reflexivity.
Qed.

Lemma wind_lists_silent s :
  wind_speed s = None ->
  issues_from WindRule s = [] /\ warnings_from WindRule s = [].
Proof.
  intros Hw. unfold issues_from, warnings_from. cbn [run].
  rewrite (wind_rule_silent s _ Hw). split; reflexivity.
Qed.

(** C8: with a wind speed [w] present, [w > 25] appends the
    "DANGEROUS WIND" issue and no wind warning, [15 < w <= 25] appends the
    "HIGH WIND" warning and no wind issue, [w <= 15] appends nothing, and
    the lists returned by [composite_score] hold a wind issue (a wind
    warning) exactly in the first (second) case; with the wind speed absent
    the rule appends nothing; the rule never appends to both lists; at
    20 mph only the warning "HIGH WIND (20 mph)" is there, at 30 mph only
    the issue "DANGEROUS WIND (30 mph)". *)
Theorem wind_rule_tiers (s : snapshot) :
  (forall w,
      wind_speed s = Some w ->
      (forall st,
          (25 < w ->
           wind_rule s st
           = Ok (add_issue ("DANGEROUS WIND (" ++ Py.format_f 0 w ++ " mph)")
                   st))
          /\ (15 < w -> w <= 25 ->
              wind_rule s st
              = Ok (add_warning ("HIGH WIND (" ++ Py.format_f 0 w ++ " mph)")
                      st))
          /\ (w <= 15 -> wind_rule s st = Ok st))
      /\ exists r,
          composite_score s = Ok r
          /\ ((exists txt,
                  In ("DANGEROUS WIND (" ++ txt ++ " mph)") (score_issues r))
              <-> 25 < w)
          /\ ((exists txt,
                  In ("HIGH WIND (" ++ txt ++ " mph)") (score_warnings r))
              <-> 15 < w /\ w <= 25))
  /\ (wind_speed s = None -> forall st, wind_rule s st = Ok st)
  /\ (issues_from WindRule s = [] \/ warnings_from WindRule s = [])
  /\ composite_score (only_wind 20)
     = Ok {| score_label := "USE CAUTION"; score_css := "score-caution";
             score_icon := "⚠"; score_issues := [];
             score_warnings := ["HIGH WIND (20 mph)"] |}
  /\ composite_score (only_wind 30)
     = Ok {| score_label := "STAY OFF WATER"; score_css := "score-danger";
             score_icon := "✕"; score_issues := ["DANGEROUS WIND (30 mph)"];
             score_warnings := [] |}.
Proof.
  repeat apply conj.
  - intros w Hw. destruct (wind_lists_eval s w Hw) as [Hi Hwn]. split.
    + intros st. rewrite (wind_rule_eval s st w Hw).
      destruct (Py.gt w 25) eqn:H1, (Py.gt w 15) eqn:H2;
        reflect_cmp; repeat split; intros;
        first [reflexivity | exfalso; lra].
    + destruct (composite_score_lists s) as (r & Hr & Hri & Hrw).
      exists r. split; [exact Hr|]. rewrite Hri, Hrw.
      setoid_rewrite wind_issue_in. setoid_rewrite wind_warning_in.
      rewrite Hi, Hwn.
      destruct (Py.gt w 25) eqn:H1, (Py.gt w 15) eqn:H2;
        reflect_cmp; cbn [In]; repeat split; intros;
        repeat match goal with
          | H : _ /\ _ |- _ => destruct H
          | H : exists _, _ |- _ => destruct H
          | H : _ \/ _ |- _ => destruct H
          | H : False |- _ => destruct H
          end;
        first [ assumption | lra | exfalso; lra
              | eexists; left; reflexivity ].
  - intros Hw st. apply wind_rule_silent, Hw.
  - destruct (wind_speed s) as [w|] eqn:Hw.
    + destruct (wind_lists_eval s w Hw) as [Hi Hwn]. rewrite Hi, Hwn.
      destruct (Py.gt w 25); auto.
    + left. apply wind_lists_silent, Hw.
  - vm_compute. reflexivity.
  - vm_compute. reflexivity.
Qed.

(** ** Visibility and fog *)

Lemma fog_risk_eval s v :
  visibility_mi s = Some v -> ~ v == 0 ->
  fog_risk s
  = Ok (if Py.lt v 1 then "HIGH" else if Py.lt v 3 then "MODERATE" else "LOW").
Proof.
  intros Hv Hnz. unfold fog_risk. rewrite Hv. unfold_rule.
  apply truthy_true in Hnz. rewrite Hnz.
  destruct (Py.lt v 1), (Py.lt v 3); reflexivity.
Qed.

Lemma fog_risk_absent s : visibility_mi s = None -> fog_risk s = Ok "LOW".
Proof. intros Hv. unfold fog_risk. rewrite Hv. reflexivity. Qed.

Lemma visibility_mi_zero s m :
  visibility_m s = Some m -> m == 0 -> visibility_mi s = None.
Proof.
  intros Hm Hz. unfold visibility_mi. rewrite Hm.
  apply truthy_false in Hz. rewrite Hz. reflexivity.
Qed.

(** C6, as the code has it: a visibility that is present and not zero
    (miles, rounded to one decimal) is "HIGH" exactly below 1 mi,
    "MODERATE" exactly from 1 mi to below 3 mi and "LOW" exactly from 3 mi
    on, so 1.8 mi and 2.0 mi are both "MODERATE"; with the visibility absent
    the displayed risk is "LOW" and the fog rule of the score appends
    nothing. *)
Theorem fog_risk_tiers (s : snapshot) :
  (forall v,
      visibility_mi s = Some v -> ~ v == 0 ->
      (fog_risk s = Ok "HIGH" <-> v < 1)
      /\ (fog_risk s = Ok "MODERATE" <-> 1 <= v /\ v < 3)
      /\ (fog_risk s = Ok "LOW" <-> 3 <= v))
  /\ (visibility_mi s = None ->
      fog_risk s = Ok "LOW" /\ forall st, fog_rule s st = Ok st)
  /\ fog_risk (only_visibility 2900) = Ok "MODERATE"
  /\ fog_risk (only_visibility 3200) = Ok "MODERATE".
Proof.
  repeat apply conj.
  - intros v Hv Hnz. rewrite (fog_risk_eval s v Hv Hnz).
    destruct (Py.lt v 1) eqn:H1, (Py.lt v 3) eqn:H2;
      reflect_cmp; repeat split; intros;
      repeat match goal with H : _ /\ _ |- _ => destruct H end;
      first [ reflexivity | discriminate | lra | exfalso; lra ].
  - intros Hv. split; [apply fog_risk_absent, Hv|].
    intros st. apply fog_rule_silent, Hv.
  - vm_compute. reflexivity.
  - vm_compute. reflexivity.
Qed.

(** C6 as claimed fails: a reading that rounds to 2.0 mi is "MODERATE", not
    "LOW"; one that rounds to 0.7 mi is "HIGH", not "MODERATE"; and with no
    reading at all the risk is "LOW". *)
Lemma fog_risk_not_as_claimed :
  (exists v,
      visibility_mi (only_visibility 3200) = Some v /\ v == 2.0
      /\ fog_risk (only_visibility 3200) = Ok "MODERATE"
      /\ fog_risk (only_visibility 3200) <> Ok "LOW")
  /\ (exists v,
         visibility_mi (only_visibility 1100) = Some v /\ v == 0.7
         /\ fog_risk (only_visibility 1100) = Ok "HIGH"
         /\ fog_risk (only_visibility 1100) <> Ok "MODERATE")
  /\ visibility_mi outage = None
  /\ fog_risk outage = Ok "LOW".
Proof.
  repeat apply conj; try reflexivity;
    eexists; (split; [reflexivity|]);
    (split; [vm_compute; reflexivity|]);
    (split; [vm_compute; reflexivity|]);
    vm_compute; discriminate.
Qed.

(** C7 at a reading of 50 m: it rounds to 0.0 mi, which is below 0.5 mi,
    and the fog rule appends nothing: the score is favourable. *)
Theorem dense_fog_missed_at_50m :
  exists v,
    visibility_mi (only_visibility 50) = Some v
    /\ v == 0 /\ v < 0.5
    /\ (forall st, fog_rule (only_visibility 50) st = Ok st)
    /\ composite_score (only_visibility 50)
       = Ok {| score_label := "CONDITIONS FAVORABLE"; score_css := "score-go";
               score_icon := "✓"; score_issues := []; score_warnings := [] |}.
Proof.
  eexists. split; [reflexivity|].
  split; [vm_compute; reflexivity|].
  split; [vm_compute; reflexivity|].
  split; [|vm_compute; reflexivity].
  intros st. eapply fog_rule_zero; [reflexivity | vm_compute; reflexivity].
Qed.

(** ** Absent inputs *)

Lemma run_absent_other r f s st :
  reads r f = false -> run r (absent f s) st = run r s st.
Proof.
  destruct r as [[river cfg]| | | | | |], f;
    cbn [reads fst]; intros Hreads; try discriminate; try reflexivity.
  apply String.eqb_neq in Hreads.
  cbn [run]. unfold stage_rule. cbn [fst snd absent current_data].
  rewrite lookup_alter_ne by congruence. reflexivity.
Qed.

Lemma lists_from_ext r s s' :
  (forall st, run r s st = run r s' st) ->
  issues_from r s = issues_from r s' /\ warnings_from r s = warnings_from r s'.
Proof. intros H. unfold issues_from, warnings_from. rewrite H. auto. Qed.

Lemma fog_lists_silent s :
  visibility_mi s = None ->
  issues_from FogRule s = [] /\ warnings_from FogRule s = [].
Proof.
  intros Hv. unfold issues_from, warnings_from. cbn [run].
  rewrite (fog_rule_silent s _ Hv). split; reflexivity.
Qed.

(** C10: a visibility reading of exactly 0 m is normalised to
    [visibility_mi = None]; the fog rule then appends neither the dense-fog
    issue nor the fog warning, the displayed fog risk is "LOW", and the
    score is the one of the same snapshot without a visibility reading. *)
Theorem zero_visibility_is_absent (s : snapshot) (m : Q) :
  visibility_m s = Some m -> m == 0 ->
  visibility_mi s = None
  /\ (forall st, fog_rule s st = Ok st)
  /\ fog_risk s = Ok "LOW"
  /\ composite_score s = composite_score (absent Visibility s).
Proof.
  intros Hm Hz. pose proof (visibility_mi_zero s m Hm Hz) as Hv.
  repeat apply conj; auto using fog_rule_silent, fog_risk_absent.
  rewrite !composite_score_unfold.
  assert (forall r, In r rules ->
            issues_from r s = issues_from r (absent Visibility s)
            /\ warnings_from r s = warnings_from r (absent Visibility s))
    as Hsame.
  { intros r _. destruct (reads r Visibility) eqn:Hreads.
    - destruct r; try discriminate.
      destruct (fog_lists_silent s Hv) as [-> ->].
      destruct (fog_lists_silent (absent Visibility s) eq_refl) as [-> ->].
      auto.
    - apply lists_from_ext. intros st. symmetry.
      apply run_absent_other, Hreads. }
  unfold all_issues, all_warnings.
  rewrite (map_ext_in _ (fun r => issues_from r (absent Visibility s)))
    by (intros r Hr; apply (Hsame r Hr)).
  rewrite (map_ext_in (fun r => warnings_from r s)
             (fun r => warnings_from r (absent Visibility s)))
    by (intros r Hr; apply (Hsame r Hr)).
  reflexivity.
Qed.

Lemma zero_visibility_is_absent_witness :
  visibility_mi (only_visibility 0) = None
  /\ (forall st, fog_rule (only_visibility 0) st = Ok st)
  /\ fog_risk (only_visibility 0) = Ok "LOW"
  /\ composite_score (only_visibility 0)
     = composite_score (absent Visibility (only_visibility 0)).
Proof.
  apply (zero_visibility_is_absent (only_visibility 0) 0); reflexivity.
Defined.

(** C2: [composite_score] returns a score, never an error, on every
    snapshot, whichever optional inputs are present or absent, and the
    issues it returns are those its rules contribute; and when one optional
    input is made absent, every issue contributed by a rule that does not
    read that input is still among the issues returned. *)
Theorem absence_safety (s : snapshot) :
  (exists sc,
      composite_score s = Ok sc
      /\ forall m,
          In m (score_issues sc)
          <-> exists r, In r rules /\ In m (issues_from r s))
  /\ forall (f : field) (r : rule),
      In r rules -> reads r f = false ->
      exists sc,
        composite_score (absent f s) = Ok sc
        /\ forall m, In m (issues_from r s) -> In m (score_issues sc).
Proof.
  split.
  - destruct (composite_score_lists s) as (sc & Hsc & Hi & _).
    exists sc. split; [exact Hsc|]. intros m. rewrite Hi.
    apply in_all_issues.
  - intros f r Hr Hreads.
    destruct (composite_score_lists (absent f s)) as (sc & Hsc & Hi & _).
    exists sc. split; [exact Hsc|]. intros m Hm. rewrite Hi.
    apply in_all_issues. exists r. split; [exact Hr|].
    destruct (lists_from_ext r (absent f s) s) as [-> _]; [|exact Hm].
    intros st. apply run_absent_other, Hreads.
Qed.

(** The danger snapshot with one input removed at a time. *)
Example danger_without_one_input :
  (exists sc, composite_score danger = Ok sc
              /\ score_issues sc
                 = [ "Monongahela at FLOOD STAGE"; "Allegheny at FLOOD STAGE";
                     "Ohio at FLOOD STAGE"; "NWS FLOOD ALERT ACTIVE";
                     "DANGEROUS WIND (30 mph)"; "POOR AIR QUALITY (AQI 180)";
                     "DENSE FOG — LIMITED VISIBILITY"; "THUNDERSTORM ACTIVE" ])
  /\ (exists sc, composite_score (absent WindSpeed danger) = Ok sc
                 /\ score_issues sc
                    = [ "Monongahela at FLOOD STAGE";
                        "Allegheny at FLOOD STAGE"; "Ohio at FLOOD STAGE";
                        "NWS FLOOD ALERT ACTIVE"; "POOR AIR QUALITY (AQI 180)";
                        "DENSE FOG — LIMITED VISIBILITY";
                        "THUNDERSTORM ACTIVE" ])
  /\ (exists sc, composite_score (absent (Gauge "Ohio") danger) = Ok sc
                 /\ score_issues sc
                    = [ "Monongahela at FLOOD STAGE";
                        "Allegheny at FLOOD STAGE"; "NWS FLOOD ALERT ACTIVE";
                        "DANGEROUS WIND (30 mph)"; "POOR AIR QUALITY (AQI 180)";
                        "DENSE FOG — LIMITED VISIBILITY";
                        "THUNDERSTORM ACTIVE" ])
  /\ (exists sc, composite_score (absent PrecipSum danger) = Ok sc
                 /\ score_warnings sc = ["RAIN / CSO RISK"]).
Proof.
  repeat apply conj; eexists; (split; [vm_compute; reflexivity|]); reflexivity.
Qed.

(** * Further properties of the panels and the score *)

(** ** The card, the panels and the score agree *)

(** X1: [stage_status] never gives a higher stage a lower tier, whatever
    the two thresholds are. *)
Theorem stage_status_monotone (action flood g1 g2 : Q) :
  g1 <= g2 ->
  le (tier_rank (fst (fst (stage_status (Some g1) action flood))))
     (tier_rank (fst (fst (stage_status (Some g2) action flood)))).
Proof.
  intros Hle. unfold stage_status.
  destruct (Py.ge g1 flood) eqn:F1, (Py.ge g2 flood) eqn:F2,
           (Py.ge g1 action) eqn:A1, (Py.ge g2 action) eqn:A2,
           (Py.ge g1 (action - 3)) eqn:E1, (Py.ge g2 (action - 3)) eqn:E2;
    cbn; reflect_cmp; first [lia | exfalso; lra].
Qed.

Lemma stage_status_monotone_witness :
  le (tier_rank (fst (fst (stage_status (Some 16.5) 17.0 25.0))))
     (tier_rank (fst (fst (stage_status (Some 25.0) 17.0 25.0)))).
Proof.
  apply (stage_status_monotone 17.0 25.0 16.5 25.0). vm_compute. discriminate.
Defined.

Lemma stage_lists_silent s rc :
  gauge_ft (default no_data (current_data s !! fst rc)) = None ->
  issues_from (StageOf rc) s = [] /\ warnings_from (StageOf rc) s = [].
Proof.
  intros Hg. unfold issues_from, warnings_from. cbn [run].
  rewrite (stage_rule_silent rc s _ Hg). split; reflexivity.
Qed.

(** X2: for each configured river the card and the score agree: the card's
    tier is "flood" exactly when the score lists "<river> at FLOOD STAGE",
    and "action" exactly when it lists "<river> at ACTION STAGE", whether
    the gauge reading is present, zero or absent. *)
Theorem card_agrees_with_score (s : snapshot) (rc : string * river_cfg) :
  In rc RIVERS ->
  exists sc,
    composite_score s = Ok sc
    /\ (fst (fst (card_status s rc)) = "flood"
        <-> In (fst rc ++ " at FLOOD STAGE") (score_issues sc))
    /\ (fst (fst (card_status s rc)) = "action"
        <-> In (fst rc ++ " at ACTION STAGE") (score_issues sc)).
Proof.
  intros Hrc. destruct (composite_score_lists s) as (sc & Hsc & Hi & _).
  exists sc. split; [exact Hsc|]. rewrite Hi.
  rewrite !(stage_issue_in s rc) by (cbn; auto).
  assert (fst rc ++ " at FLOOD STAGE" <> fst rc ++ " at ACTION STAGE") as Hne
    by (destruct Hrc as [<- | [<- | [<- | []]]]; discriminate).
  destruct (RIVERS_thresholds rc Hrc) as [Ha Hf].
  unfold card_status, stage_status.
  destruct (gauge_ft (default no_data (current_data s !! fst rc)))
    as [g|] eqn:Hg.
  - destruct (stage_issues_eval s rc g Hrc Hg) as [-> _].
    destruct (Py.ge g (flood_stage (snd rc))) eqn:H1,
             (Py.ge g (action_stage (snd rc))) eqn:H2,
             (Py.ge g (action_stage (snd rc) - 3)) eqn:H3;
      cbn [fst snd In]; repeat split; intros;
      repeat match goal with
        | H : _ \/ _ |- _ => destruct H
        | H : False |- _ => destruct H
        end;
      first [ reflexivity | discriminate | left; reflexivity
            | exfalso; congruence ].
  - destruct (stage_lists_silent s rc Hg) as [-> _].
    cbn [fst snd In]. repeat split; intros; first [discriminate | contradiction].
Qed.

Lemma card_agrees_with_score_witness :
  exists sc,
    composite_score (only_gauge "Ohio" 20) = Ok sc
    /\ (fst (fst (card_status (only_gauge "Ohio" 20)
                    ("Ohio",
                     {| site_id := "03086000"; location := "Sewickley";
                        color := "#FFB74D"; action_stage := 16.0;
                        flood_stage := 24.0; icon := "⚡";
                        nwps_id := "SEWP1"; upstream_site := None;
                        upstream_name := None |}))) = "flood"
        <-> In "Ohio at FLOOD STAGE" (score_issues sc))
    /\ (fst (fst (card_status (only_gauge "Ohio" 20)
                    ("Ohio",
                     {| site_id := "03086000"; location := "Sewickley";
                        color := "#FFB74D"; action_stage := 16.0;
                        flood_stage := 24.0; icon := "⚡";
                        nwps_id := "SEWP1"; upstream_site := None;
                        upstream_name := None |}))) = "action"
        <-> In "Ohio at ACTION STAGE" (score_issues sc)).
Proof.
  apply (card_agrees_with_score (only_gauge "Ohio" 20)
           ("Ohio",
            {| site_id := "03086000"; location := "Sewickley";
               color := "#FFB74D"; action_stage := 16.0;
               flood_stage := 24.0; icon := "⚡";
               nwps_id := "SEWP1"; upstream_site := None;
               upstream_name := None |})).
  cbn. right. right. left. reflexivity.
Defined.

Ltac split_iffs :=
  repeat match goal with
    | |- _ /\ _ => split
    | |- _ <-> _ => split
    end.

Lemma issue_in_by_shape s r0 m :
  In r0 rules ->
  (forall r, In r rules -> issue_shape r m -> r = r0) ->
  In m (all_issues s) <-> In m (issues_from r0 s).
Proof.
  intros Hr0 Honly. rewrite in_all_issues. split.
  - intros (r & Hr & Hin).
    rewrite <- (Honly r Hr (issues_from_shape _ _ _ Hin)). exact Hin.
  - intros Hin. exists r0. auto.
Qed.

Lemma warning_in_by_shape s r0 m :
  In r0 rules ->
  (forall r, In r rules -> warning_shape r m -> r = r0) ->
  In m (all_warnings s) <-> In m (warnings_from r0 s).
Proof.
  intros Hr0 Honly. rewrite in_all_warnings. split.
  - intros (r & Hr & Hin).
    rewrite <- (Honly r Hr (warnings_from_shape _ _ _ Hin)). exact Hin.
  - intros Hin. exists r0. auto.
Qed.

Ltac in_rules := unfold rules; apply in_or_app; right; cbn; tauto.

Ltac only_rule :=
  let r := fresh "r" in
  let Hr := fresh "Hr" in
  let Hs := fresh "Hs" in
  intros r Hr Hs; split_rules Hr; cbn in Hs; split_shapes;
  first [reflexivity | discriminate | contradiction].

Lemma aqi_issue_in s txt :
  In ("POOR AIR QUALITY (AQI " ++ txt ++ ")") (all_issues s)
  <-> In ("POOR AIR QUALITY (AQI " ++ txt ++ ")") (issues_from AqiRule s).
Proof. apply issue_in_by_shape; [in_rules | only_rule]. Qed.

Lemma aqi_warning_in s txt :
  In ("MODERATE AIR QUALITY (AQI " ++ txt ++ ")") (all_warnings s)
  <-> In ("MODERATE AIR QUALITY (AQI " ++ txt ++ ")")
         (warnings_from AqiRule s).
Proof. apply warning_in_by_shape; [in_rules | only_rule]. Qed.

Lemma precip_warning_in s :
  In "RAIN / CSO RISK" (all_warnings s)
  <-> In "RAIN / CSO RISK" (warnings_from PrecipRule s).
Proof. apply warning_in_by_shape; [in_rules | only_rule]. Qed.

Lemma storm_issue_in s :
  In "THUNDERSTORM ACTIVE" (all_issues s)
  <-> In "THUNDERSTORM ACTIVE" (issues_from StormRule s).
Proof. apply issue_in_by_shape; [in_rules | only_rule]. Qed.

Lemma alert_issue_in s :
  In "NWS FLOOD ALERT ACTIVE" (all_issues s)
  <-> In "NWS FLOOD ALERT ACTIVE" (issues_from AlertRule s).
Proof. apply issue_in_by_shape; [in_rules | only_rule]. Qed.

Lemma aqi_lists_eval s :
  issues_from AqiRule s
  = match aqi_val s with
    | Some a =>
        if (150 <? a)%Z then ["POOR AIR QUALITY (AQI " ++ Py.str_int a ++ ")"]
        else []
    | None => []
    end
  /\ warnings_from AqiRule s
     = match aqi_val s with
       | Some a =>
           if (150 <? a)%Z then []
           else if (100 <? a)%Z then
             ["MODERATE AIR QUALITY (AQI " ++ Py.str_int a ++ ")"]
           else []
       | None => []
       end.
Proof.
  unfold_rule. destruct (aqi_val s) as [a|]; cbn; [|auto].
  destruct (a =? 0)%Z eqn:H0, (150 <? a)%Z eqn:H1, (100 <? a)%Z eqn:H2;
    cbn; auto; exfalso; lia.
Qed.

(** X3: the air-quality panel and the score agree: for every AQI reading,
    present or absent, the score lists a "POOR AIR QUALITY" issue exactly
    when [aqi_label] colours the reading red or purple (UNHEALTHY or VERY
    UNHEALTHY), and a "MODERATE AIR QUALITY" warning exactly when it colours
    it orange (UNHEALTHY SENSITIVE). *)
Theorem aqi_label_agrees_with_score (s : snapshot) :
  exists sc,
    composite_score s = Ok sc
    /\ ((exists txt,
            In ("POOR AIR QUALITY (AQI " ++ txt ++ ")") (score_issues sc))
        <-> snd (aqi_label (aqi_val s)) = "#ef5350"
            \/ snd (aqi_label (aqi_val s)) = "#ab47bc")
    /\ ((exists txt,
            In ("MODERATE AIR QUALITY (AQI " ++ txt ++ ")")
              (score_warnings sc))
        <-> snd (aqi_label (aqi_val s)) = "#ffa726").
Proof.
  destruct (composite_score_lists s) as (sc & Hsc & Hi & Hw).
  exists sc. split; [exact Hsc|]. rewrite Hi, Hw.
  setoid_rewrite aqi_issue_in. setoid_rewrite aqi_warning_in.
  destruct (aqi_lists_eval s) as [-> ->]. unfold aqi_label.
  destruct (aqi_val s) as [a|].
  - destruct (a <=? 50)%Z eqn:L1, (a <=? 100)%Z eqn:L2,
             (a <=? 150)%Z eqn:L3, (a <=? 200)%Z eqn:L4,
             (150 <? a)%Z eqn:H1, (100 <? a)%Z eqn:H2;
      try (exfalso; lia);
      cbn [fst snd In]; split_iffs; intros;
      repeat match goal with
        | H : exists _, _ |- _ => destruct H
        | H : _ \/ _ |- _ => destruct H
        | H : False |- _ => destruct H
        end;
      first [ discriminate | tauto | eexists; left; reflexivity ].
  - cbn [fst snd In]. split_iffs; intros;
      repeat match goal with
        | H : exists _, _ |- _ => destruct H
        | H : _ \/ _ |- _ => destruct H
        | H : False |- _ => destruct H
        end; discriminate.
Qed.

(** X4: the wind panel and the score agree: the panel is red exactly when
    the score lists a "DANGEROUS WIND" issue and orange exactly when it
    lists a "HIGH WIND" warning, whether the wind speed is present, zero or
    absent. *)
Theorem wind_color_agrees_with_score (s : snapshot) :
  exists sc,
    composite_score s = Ok sc
    /\ (wind_color s = "#ef5350"
        <-> exists txt,
            In ("DANGEROUS WIND (" ++ txt ++ " mph)") (score_issues sc))
    /\ (wind_color s = "#ffa726"
        <-> exists txt,
            In ("HIGH WIND (" ++ txt ++ " mph)") (score_warnings sc)).
Proof.
  destruct (composite_score_lists s) as (sc & Hsc & Hi & Hw).
  exists sc. split; [exact Hsc|]. rewrite Hi, Hw.
  setoid_rewrite wind_issue_in. setoid_rewrite wind_warning_in.
  unfold wind_color. destruct (wind_speed s) as [w|] eqn:Hws.
  - destruct (wind_lists_eval s w Hws) as [-> ->]. cbn [Py.or_zero].
    destruct (Py.gt w 25), (Py.gt w 15);
      cbn [In]; split_iffs; intros;
      repeat match goal with
        | H : exists _, _ |- _ => destruct H
        | H : _ \/ _ |- _ => destruct H
        | H : False |- _ => destruct H
        end;
      first [ reflexivity | discriminate | eexists; left; reflexivity ].
  - destruct (wind_lists_silent s Hws) as [-> ->]. cbn.
    split_iffs; intros;
      repeat match goal with
        | H : exists _, _ |- _ => destruct H
        | H : False |- _ => destruct H
        end; discriminate.
Qed.

Lemma precip_lists_eval s :
  issues_from PrecipRule s = []
  /\ warnings_from PrecipRule s
     = (if Py.gt (Py.or_zero (precip_prob_today s)) 70
           || Py.gt (Py.or_zero (precip_sum_today s)) 0.5
        then ["RAIN / CSO RISK"] else []).
Proof.
  unfold_rule.
  destruct (Py.gt (Py.or_zero (precip_prob_today s)) 70
            || Py.gt (Py.or_zero (precip_sum_today s)) 0.5); auto.
Qed.

(** X5: the score warns "RAIN / CSO RISK" exactly when the day's
    precipitation probability is above 70 % or its sum above 0.5 in (an
    absent value counting as 0), and whenever it does the header's overflow
    risk is "HIGH OVERFLOW RISK"; the converse fails on the bounds: at
    exactly 70 %, or exactly 0.5 in, the risk is high with no warning. *)
Theorem rain_warning_implies_high_cso (s : snapshot) :
  (exists sc,
      composite_score s = Ok sc
      /\ (In "RAIN / CSO RISK" (score_warnings sc)
          <-> 70 < Py.or_zero (precip_prob_today s)
              \/ 0.5 < Py.or_zero (precip_sum_today s))
      /\ (In "RAIN / CSO RISK" (score_warnings sc)
          -> cso_label s = "HIGH OVERFLOW RISK"))
  /\ cso_label (only_precip 70 0) = "HIGH OVERFLOW RISK"
  /\ composite_score (only_precip 70 0)
     = Ok {| score_label := "CONDITIONS FAVORABLE"; score_css := "score-go";
             score_icon := "✓"; score_issues := []; score_warnings := [] |}
  /\ cso_label (only_precip 0 0.5) = "HIGH OVERFLOW RISK"
  /\ composite_score (only_precip 0 0.5)
     = Ok {| score_label := "CONDITIONS FAVORABLE"; score_css := "score-go";
             score_icon := "✓"; score_issues := []; score_warnings := [] |}.
Proof.
  split; [|repeat apply conj; vm_compute; reflexivity].
  destruct (composite_score_lists s) as (sc & Hsc & _ & Hw).
  exists sc. split; [exact Hsc|]. rewrite Hw, precip_warning_in.
  destruct (precip_lists_eval s) as [_ ->].
  unfold cso_label, cso_risk_from_precip.
  destruct (Py.gt (Py.or_zero (precip_prob_today s)) 70) eqn:H1,
           (Py.gt (Py.or_zero (precip_sum_today s)) 0.5) eqn:H2,
           (Py.ge (Py.or_zero (precip_sum_today s)) 0.5) eqn:H3,
           (Py.ge (Py.or_zero (precip_prob_today s)) 70) eqn:H4;
    reflect_cmp; try (exfalso; lra);
    cbn [orb In fst]; split_iffs; intros;
    repeat match goal with
      | H : _ \/ _ |- _ => destruct H
      | H : False |- _ => destruct H
      end;
    first [ reflexivity | tauto | exfalso; lra ].
Qed.

(** ** Weather code and alerts *)

Lemma storm_lists_eval s :
  issues_from StormRule s
  = match weather_code s with
    | Some c => if (95 <=? c)%Z then ["THUNDERSTORM ACTIVE"] else []
    | None => []
    end
  /\ warnings_from StormRule s = [].
Proof.
  unfold_rule. destruct (weather_code s) as [c|]; cbn; [|auto].
  destruct (c =? 0)%Z eqn:H0, (95 <=? c)%Z eqn:H1; cbn; auto; exfalso; lia.
Qed.

(** X12: the score lists "THUNDERSTORM ACTIVE" exactly when a weather code
    of 95 or more is present; every code that [WMO_CODES] describes as a
    thunderstorm raises it, and no code the table describes otherwise
    does. *)
Theorem storm_issue_matches_wmo (s : snapshot) :
  exists sc,
    composite_score s = Ok sc
    /\ (In "THUNDERSTORM ACTIVE" (score_issues sc)
        <-> exists c, weather_code s = Some c /\ (95 <= c)%Z)
    /\ (wx_desc s <> "—"
        -> (In "THUNDERSTORM ACTIVE" (score_issues sc)
            <-> Py.contains "Thunderstorm" (wx_desc s)
                || Py.contains "T-Storm" (wx_desc s) = true)).
Proof.
  destruct (composite_score_lists s) as (sc & Hsc & Hi & _).
  exists sc. split; [exact Hsc|]. rewrite Hi, storm_issue_in.
  destruct (storm_lists_eval s) as [-> _]. unfold wx_desc.
  destruct (weather_code s) as [c|].
  - split.
    + destruct (95 <=? c)%Z eqn:H1; cbn [In]; split; intros H.
      * exists c. split; [reflexivity | lia].
      * left. reflexivity.
      * destruct H.
      * destruct H as (c' & [= <-] & H). lia.
    + unfold wmo_get, WMO_CODES. cbn [find fst snd].
      repeat match goal with
        | |- context [(?k =? c)%Z] =>
            destruct (Z.eqb_spec k c) as [<- | ?];
            [ intros _; vm_compute; split; intros H;
              first [ reflexivity | discriminate | tauto
                    | destruct H as [H | []]; discriminate ] | ]
        end.
      intros H. contradiction.
  - split.
    + cbn [In]. split; [intros [] | intros (c & [=] & _)].
    + intros H. contradiction.
Qed.

Lemma alert_lists_eval s :
  issues_from AlertRule s
  = (if existsb is_flood_alert (nws_alerts s) then ["NWS FLOOD ALERT ACTIVE"]
     else [])
  /\ warnings_from AlertRule s = [].
Proof.
  unfold_rule.
  destruct (List.filter is_flood_alert (nws_alerts s)) as [|a l] eqn:Hf.
  - replace (existsb is_flood_alert (nws_alerts s)) with false; [auto|].
    symmetry. apply not_true_iff_false. intros H.
    apply existsb_exists in H as (a & Ha & Hfa).
    assert (In a (List.filter is_flood_alert (nws_alerts s))) as Hin
      by (apply filter_In; auto).
    rewrite Hf in Hin. destruct Hin.
  - replace (existsb is_flood_alert (nws_alerts s)) with true; [auto|].
    symmetry. apply existsb_exists. exists a.
    apply filter_In. rewrite Hf. left. reflexivity.
Qed.

Lemma in_firstn {A : Type} (n : nat) (l : list A) (x : A) :
  In x (firstn n l) -> In x l.
Proof.
  intros H. rewrite <- (firstn_skipn n l). apply in_or_app. left. exact H.
Qed.

Lemma contains_flood_both a :
  Py.contains "flood" (Py.lower (event a)) = true ->
  is_flood_alert a = true /\ is_banner_alert a = true.
Proof.
  intros H. unfold is_flood_alert, is_banner_alert. cbn [existsb].
  rewrite H. auto.
Qed.

(** X13: the score lists "NWS FLOOD ALERT ACTIVE" exactly when some
    alert's event mentions "flood" or "flash" (in any letter case); the
    banner shows at most three alerts, each taken from the alert list and
    mentioning one of its keywords; and an alert that mentions "flood"
    both raises the issue and puts something on the banner. *)
Theorem flood_alerts_in_score_and_banner (s : snapshot) :
  exists sc,
    composite_score s = Ok sc
    /\ (In "NWS FLOOD ALERT ACTIVE" (score_issues sc)
        <-> exists a, In a (nws_alerts s) /\ is_flood_alert a = true)
    /\ le (List.length (banner_alerts s)) 3
    /\ (forall a, In a (banner_alerts s) ->
                  In a (nws_alerts s) /\ is_banner_alert a = true)
    /\ (forall a, In a (nws_alerts s) ->
                  Py.contains "flood" (Py.lower (event a)) = true ->
                  In "NWS FLOOD ALERT ACTIVE" (score_issues sc)
                  /\ banner_alerts s <> []).
Proof.
  destruct (composite_score_lists s) as (sc & Hsc & Hi & _).
  exists sc. split; [exact Hsc|]. rewrite Hi.
  destruct (alert_lists_eval s) as [Heq _].
  assert (In "NWS FLOOD ALERT ACTIVE" (all_issues s)
          <-> In "NWS FLOOD ALERT ACTIVE"
                (if existsb is_flood_alert (nws_alerts s)
                 then ["NWS FLOOD ALERT ACTIVE"] else [])) as Hin
    by (rewrite alert_issue_in, Heq; reflexivity).
  assert (In "NWS FLOOD ALERT ACTIVE"
            (if existsb is_flood_alert (nws_alerts s)
             then ["NWS FLOOD ALERT ACTIVE"] else [])
          <-> exists a, In a (nws_alerts s) /\ is_flood_alert a = true)
    as Hiff.
  { rewrite <- existsb_exists.
    destruct (existsb is_flood_alert (nws_alerts s)); cbn [In];
      split; intros H; first [reflexivity | tauto | discriminate]. }
  assert (forall a, In a (banner_alerts s) ->
                    In a (List.filter is_banner_alert (nws_alerts s)))
    as Hsub.
  { intros a. unfold banner_alerts. destruct (nws_alerts s); [intros []|].
    apply in_firstn. }
  repeat apply conj.
  - intros H. apply Hiff, Hin, H.
  - intros H. apply Hin, Hiff, H.
  - unfold banner_alerts. destruct (nws_alerts s); cbn [List.length]; [lia|].
    apply firstn_le_length.
  - intros a Ha. apply filter_In, Hsub, Ha.
  - intros a Ha Hflood. destruct (contains_flood_both a Hflood) as [Hf Hb].
    split; [apply Hin, Hiff; eauto|].
    unfold banner_alerts. destruct (nws_alerts s) as [|a0 l] eqn:Hl;
      [destruct Ha|].
    assert (In a (List.filter is_banner_alert (a0 :: l))) as Hshown
      by (apply filter_In; auto).
    destruct (List.filter is_banner_alert (a0 :: l)); [destruct Hshown|].
    discriminate.
Qed.

(** ** The shape of the two lists *)

Lemma rule_at_most_one r s :
  le (List.length (issues_from r s) + List.length (warnings_from r s)) 1.
Proof.
  destruct r; unfold_rule; cbn [fst snd app];
    try destruct (visibility_mi s); rule_cases; cbn; lia.
Qed.

Lemma rule_one_sided r s :
  match r with
  | StageOf _ | AlertRule | StormRule => warnings_from r s = []
  | PrecipRule => issues_from r s = []
  | _ => True
  end.
Proof.
  destruct r; unfold_rule; cbn [fst snd app]; rule_cases; reflexivity.
Qed.

(** X14: in the score's result no text is both an issue and a warning,
    there are at most eight issues and at most four warnings, and at most
    nine factors in all (every rule gives at most one). *)
Theorem score_lists_disjoint_and_bounded (s : snapshot) :
  exists sc,
    composite_score s = Ok sc
    /\ (forall m, In m (score_issues sc) -> In m (score_warnings sc) -> False)
    /\ le (List.length (score_issues sc)) 8
    /\ le (List.length (score_warnings sc)) 4
    /\ le (List.length (score_issues sc) + List.length (score_warnings sc)) 9.
Proof.
  destruct (composite_score_lists s) as (sc & Hsc & Hi & Hw).
  exists sc. split; [exact Hsc|]. rewrite Hi, Hw. split.
  - intros m Hmi Hmw.
    apply in_all_issues in Hmi as (r1 & Hr1 & Hs1).
    apply in_all_warnings in Hmw as (r2 & Hr2 & Hs2).
    apply issues_from_shape in Hs1. apply warnings_from_shape in Hs2.
    split_rules Hr1; split_rules Hr2; cbn in Hs1, Hs2; split_shapes;
      first [ contradiction
            | match goal with
              | H1 : m = _, H2 : m = _ |- _ => rewrite H1 in H2; discriminate
              end ].
  - unfold all_issues, all_warnings, rules, RIVERS.
    cbn [List.map app concat]. rewrite !length_app. cbn [List.length].
    repeat match goal with
      | |- context [issues_from ?r s] =>
          lazymatch goal with
          | _ : le (List.length (issues_from r s) + _) 1 |- _ => fail
          | _ =>
              let H := fresh "Hside" in
              pose proof (rule_at_most_one r s);
              pose proof (rule_one_sided r s) as H; cbv beta iota in H;
              try apply (f_equal (@List.length string)) in H
          end
      end.
    cbn [List.length] in *. lia.
Qed.

(** X15: the issues and the warnings of the score are, in evaluation order
    (the rivers in the order of [RIVERS], then alerts, wind, precipitation,
    air quality, fog and thunderstorm), what each rule appends when run on
    its own: no rule depends on what the rules before it found. *)
Theorem score_lists_in_rule_order (s : snapshot) :
  exists sc,
    composite_score s = Ok sc
    /\ score_issues sc = concat (List.map (fun r => issues_from r s) rules)
    /\ score_warnings sc
       = concat (List.map (fun r => warnings_from r s) rules)
    /\ forall r st,
        run r s st
        = Ok ((fst st ++ issues_from r s)%list,
              (snd st ++ warnings_from r s)%list).
Proof.
  destruct (composite_score_lists s) as (sc & Hsc & Hi & Hw).
  exists sc. repeat apply conj; try assumption.
  intros r st. apply rule_appends.
Qed.

(** ** The header line *)

Lemma factor_not_normal s m rest :
  In m (all_issues s) \/ In m (all_warnings s) ->
  m <> "All systems normal" /\ m ++ rest <> "All systems normal".
Proof.
  intros [Hin | Hin].
  - apply in_all_issues in Hin as (r & Hr & Hs).
    apply issues_from_shape in Hs.
    split_rules Hr; cbn in Hs; split_shapes; try contradiction; subst m;
      split; cbn; discriminate.
  - apply in_all_warnings in Hin as (r & Hr & Hs).
    apply warnings_from_shape in Hs.
    split_rules Hr; cbn in Hs; split_shapes; try contradiction; subst m;
      split; cbn; discriminate.
Qed.

Lemma join_first_two (h : string) (t : list string) :
  py_join " · " (firstn 2 (h :: t)) = h
  \/ exists rest, py_join " · " (firstn 2 (h :: t)) = h ++ rest.
Proof.
  destruct t as [|h2 t]; [left; reflexivity|].
  right. exists (" · " ++ h2). reflexivity.
Qed.

Lemma detail_shows_head s sc h t :
  (score_issues sc ++ score_warnings sc)%list = h :: t ->
  In h (all_issues s) \/ In h (all_warnings s) ->
  detail sc <> "All systems normal".
Proof.
  intros Hall Hin. unfold detail. rewrite Hall.
  destruct (join_first_two h t) as [-> | [rest ->]].
  - apply (factor_not_normal s h "" Hin).
  - apply (factor_not_normal s h rest Hin).
Qed.

(** X6: the header line under the verdict reads "All systems normal"
    exactly when the verdict is "CONDITIONS FAVORABLE"; otherwise it shows
    the first two factors, issues before warnings, so that with two or more
    issues no warning is shown. *)
Theorem detail_matches_verdict (s : snapshot) :
  exists sc,
    composite_score s = Ok sc
    /\ (detail sc = "All systems normal"
        <-> score_label sc = "CONDITIONS FAVORABLE")
    /\ (le 2 (List.length (score_issues sc)) ->
        detail sc = py_join " · " (firstn 2 (score_issues sc))).
Proof.
  rewrite composite_score_unfold. eexists. split; [reflexivity|].
  destruct (all_issues s) as [|i issues] eqn:Hi,
           (all_warnings s) as [|w warnings] eqn:Hw; cbn [verdict].
  - cbn. split; [tauto | lia].
  - split; [|cbn; lia].
    split; [|discriminate]. intros H. exfalso. revert H.
    apply (detail_shows_head s _ w warnings); [reflexivity|].
    right. rewrite Hw. left. reflexivity.
  - split.
    + split; [|discriminate]. intros H. exfalso. revert H.
      apply (detail_shows_head s _ i (issues ++ [])%list); [reflexivity|].
      left. rewrite Hi. left. reflexivity.
    + unfold detail. cbn [score_issues score_warnings].
      rewrite app_nil_r. destruct issues; cbn; [lia | reflexivity].
  - split.
    + split; [|discriminate]. intros H. exfalso. revert H.
      apply (detail_shows_head s _ i (issues ++ w :: warnings)%list);
        [reflexivity|].
      left. rewrite Hi. left. reflexivity.
    + unfold detail. cbn [score_issues score_warnings].
      destruct issues as [|i2 issues]; cbn [List.length]; [lia|].
      intros _. reflexivity.
Qed.

(** ** Rounding *)

Lemma floor_unique (x : Q) (n : Z) :
  inject_Z n <= x -> x < inject_Z (n + 1) -> Qfloor x = n.
Proof.
  intros Hlo Hhi.
  pose proof (Qfloor_le x) as Hf. pose proof (Qlt_floor x) as Hc.
  assert (inject_Z n < inject_Z (Qfloor x + 1)) as H1 by lra.
  assert (inject_Z (Qfloor x) < inject_Z (n + 1)) as H2 by lra.
  rewrite <- Zlt_Qlt in H1, H2. lia.
Qed.

Lemma floor_shift (x : Q) (n : Z) :
  Qfloor (x + inject_Z n) = (Qfloor x + n)%Z.
Proof.
  pose proof (Qfloor_le x) as Hf. pose proof (Qlt_floor x) as Hc.
  apply floor_unique.
  - rewrite inject_Z_plus. lra.
  - rewrite !inject_Z_plus in *. lra.
Qed.

Lemma round_half_even_Qeq (x y : Q) :
  x == y -> Py.round_half_even x = Py.round_half_even y.
Proof.
  intros E. unfold Py.round_half_even. rewrite (Qfloor_comp x y E).
  assert (x - inject_Z (Qfloor y) == y - inject_Z (Qfloor y)) as ->
    by (rewrite E; reflexivity).
  reflexivity.
Qed.

Lemma round_half_even_shift (x : Q) (m : Z) :
  Z.even m = true ->
  Py.round_half_even (x + inject_Z m) = (Py.round_half_even x + m)%Z.
Proof.
  intros Hm. unfold Py.round_half_even. rewrite floor_shift.
  assert (x + inject_Z m - inject_Z (Qfloor x + m)
          == x - inject_Z (Qfloor x)) as ->
    by (rewrite inject_Z_plus; ring).
  rewrite Z.even_add, Hm.
  destruct (x - inject_Z (Qfloor x) ?= 1 # 2)%Q; try lia.
  destruct (Z.even (Qfloor x)); cbn; lia.
Qed.

Lemma round_half_even_Z (n : Z) : Py.round_half_even (inject_Z n) = n.
Proof.
  unfold Py.round_half_even. rewrite Qfloor_Z.
  assert ((inject_Z n - inject_Z n ?= 1 # 2)%Q = Lt) as H
    by (rewrite <- Qlt_alt; lra).
  rewrite H. reflexivity.
Qed.

Lemma round_half_even_near (x : Q) :
  - (1 # 2) <= x - inject_Z (Py.round_half_even x) <= 1 # 2.
Proof.
  pose proof (Qfloor_le x) as Hf. pose proof (Qlt_floor x) as Hc.
  rewrite inject_Z_plus in Hc. change (inject_Z 1) with 1 in Hc.
  unfold Py.round_half_even.
  destruct (x - inject_Z (Qfloor x) ?= 1 # 2)%Q eqn:Hcmp.
  - rewrite <- Qeq_alt in Hcmp.
    destruct (Z.even (Qfloor x)); rewrite ?inject_Z_plus;
      change (inject_Z 1) with 1; lra.
  - rewrite <- Qlt_alt in Hcmp. lra.
  - rewrite <- Qgt_alt in Hcmp. rewrite inject_Z_plus.
    change (inject_Z 1) with 1. lra.
Qed.

Lemma index_in_range {A : Type} (l : list A) (i : Z) :
  (0 <= i < Z.of_nat (List.length l))%Z -> exists x, py_index l i = Some x.
Proof.
  intros Hi. unfold py_index.
  destruct (i <? 0)%Z eqn:Hneg; [lia|].
  destruct (nth_error l (Z.to_nat i)) as [x|] eqn:Hn; [eauto|].
  apply nth_error_None in Hn. lia.
Qed.

(** ** Compass, moon and trend *)

(** X7: [wind_compass] returns one of its sixteen names for every
    direction, negative or beyond 360 degrees included (the index is never
    out of range); it has period 360 degrees; and the name is that of the
    multiple of 22.5 degrees nearest to the direction. *)
Theorem wind_compass_total_periodic (deg : Q) :
  exists d k,
    wind_compass deg = Some d
    /\ wind_compass (deg + 360) = Some d
    /\ wind_compass (deg - 360) = Some d
    /\ - 11.25 <= deg - 22.5 * inject_Z k <= 11.25
    /\ wind_compass (22.5 * inject_Z k) = Some d.
Proof.
  set (k := Py.round_half_even (deg / 22.5)).
  assert (Py.round_half_even ((deg + 360) / 22.5) = (k + 16)%Z) as Hplus.
  { unfold k. rewrite <- (round_half_even_shift (deg / 22.5) 16 eq_refl).
    apply round_half_even_Qeq. field. }
  assert (Py.round_half_even ((deg - 360) / 22.5) = (k + -16)%Z) as Hminus.
  { unfold k. rewrite <- (round_half_even_shift (deg / 22.5) (-16) eq_refl).
    apply round_half_even_Qeq. field. }
  assert (Py.round_half_even (22.5 * inject_Z k / 22.5) = k) as Hk.
  { rewrite <- (round_half_even_Z k) at 2.
    apply round_half_even_Qeq. field. }
  assert (exists d, wind_compass deg = Some d) as [d Hd].
  { unfold wind_compass. apply index_in_range. cbn [List.length].
    pose proof (Z.mod_pos_bound (Py.round_half_even (deg / 22.5)) 16). lia. }
  exists d, k. rewrite <- Hd. unfold wind_compass. fold k.
  rewrite Hplus, Hminus, Hk.
  replace ((k + 16) mod 16)%Z with (k mod 16)%Z
    by (rewrite <- (Z_mod_plus_full k 1 16); f_equal; lia).
  replace ((k + -16) mod 16)%Z with (k mod 16)%Z
    by (rewrite <- (Z_mod_plus_full k (-1) 16); f_equal; lia).
  repeat apply conj; try reflexivity.
  - pose proof (round_half_even_near (deg / 22.5)) as [Hlo _]. fold k in Hlo.
    assert (deg == deg / 22.5 * 22.5) as E by field. lra.
  - pose proof (round_half_even_near (deg / 22.5)) as [_ Hhi]. fold k in Hhi.
    assert (deg == deg / 22.5 * 22.5) as E by field. lra.
Qed.

Lemma py_mod_bounds (x m : Q) : 0 < m -> 0 <= py_mod x m /\ py_mod x m < m.
Proof.
  intros Hm. unfold py_mod.
  pose proof (Qfloor_le (x / m)) as Hf. pose proof (Qlt_floor (x / m)) as Hc.
  rewrite inject_Z_plus in Hc. change (inject_Z 1) with 1 in Hc.
  assert (x == x / m * m) as E by (field; lra).
  set (q := x / m) in *. set (f := inject_Z (Qfloor q)) in *.
  assert (f * m <= q * m) by (apply Qmult_le_compat_r; lra).
  assert (q * m < (f + 1) * m) by (apply Qmult_lt_compat_r; lra).
  split; lra.
Qed.

Lemma py_int_nonneg (x : Q) (n : Z) :
  0 <= x -> x < inject_Z n -> (0 <= py_int x < n)%Z.
Proof.
  intros H0 Hn. unfold py_int.
  destruct (Py.lt x 0) eqn:Hneg; reflect_cmp; [exfalso; lra|].
  pose proof (Qfloor_le x) as Hf.
  pose proof (Qfloor_resp_le 0 x H0) as Hz. change (Qfloor 0) with 0%Z in Hz.
  assert (inject_Z (Qfloor x) < inject_Z n) as Hlt by lra.
  rewrite <- Zlt_Qlt in Hlt. lia.
Qed.

Lemma moon_phase_bounds (days_since : Z) :
  exists phase emoji name,
    moon_phase days_since = Some (phase, emoji, name)
    /\ 0 <= phase /\ phase < 1.
Proof.
  unfold moon_phase.
  set (phase := py_mod (inject_Z days_since) 29.53059 / 29.53059).
  destruct (py_mod_bounds (inject_Z days_since) 29.53059 eq_refl) as [Hlo Hhi].
  assert (0 <= phase /\ phase < 1) as [H0 H1].
  { unfold phase.
    set (r := py_mod (inject_Z days_since) 29.53059) in *.
    assert (r == r / 29.53059 * 29.53059) as E by field.
    split; lra. }
  assert (0 <= py_int (phase * 12) < 12)%Z as Hidx
    by (apply py_int_nonneg; [lra | change (inject_Z 12) with 12; lra]).
  rewrite (Z.min_l (py_int (phase * 12)) 12) by lia.
  match goal with
  | |- context [py_index ?l (py_int (phase * 12))] =>
      destruct (index_in_range l (py_int (phase * 12))) as [e ->];
      [cbn [List.length]; lia|]
  end.
  match goal with
  | |- context [py_index ?l (py_int (phase * 12))] =>
      destruct (index_in_range l (py_int (phase * 12))) as [n ->];
      [cbn [List.length]; lia|]
  end.
  exists phase, e, n. repeat apply conj; try reflexivity; assumption.
Qed.

(** X8: [moon_phase] returns for every day count, before or after the
    reference new moon: both table look-ups succeed, the phase lies in
    [0, 1), and the table index is between 0 and 11, so the thirteenth
    entry of the two tables is never the one returned. *)
Theorem moon_phase_in_range (days_since : Z) :
  exists phase emoji name,
    moon_phase days_since = Some (phase, emoji, name)
    /\ 0 <= phase /\ phase < 1
    /\ (0 <= py_int (phase * 12) <= 11)%Z
    /\ Z.min (py_int (phase * 12)) 12 = py_int (phase * 12).
Proof.
  destruct (moon_phase_bounds days_since) as (phase & e & n & Hm & H0 & H1).
  exists phase, e, n.
  assert (0 <= py_int (phase * 12) < 12)%Z as Hidx
    by (apply py_int_nonneg; [lra | change (inject_Z 12) with 12; lra]).
  repeat apply conj; try assumption; try lia.
Qed.

(** X9: the moon panel never shows more than 50 % illuminated: the
    percentage is at most 50 for every phase, exactly 50 at phase 0.5 (full
    moon), and between 0 and 50 for the phases [moon_phase] returns. *)
Theorem moon_pct_at_most_fifty (days_since : Z) :
  (forall v, moon_pct_display v <= 50)
  /\ moon_pct_display 0.5 == 50
  /\ exists phase emoji name,
      moon_phase days_since = Some (phase, emoji, name)
      /\ 0 <= moon_pct_display phase <= 50.
Proof.
  assert (forall v, moon_pct_display v <= 50) as Hmax.
  { intros v. unfold moon_pct_display.
    destruct (Qle_bool v 0.5) eqn:H.
    - apply Qle_bool_iff in H. lra.
    - apply not_true_iff_false in H. rewrite Qle_bool_iff in H. lra. }
  split; [exact Hmax|]. split; [reflexivity|].
  destruct (moon_phase_bounds days_since)
    as (phase & e & n & Hm & H0 & H1).
  exists phase, e, n. split; [exact Hm|]. split; [|apply Hmax].
  unfold moon_pct_display. destruct (Qle_bool phase 0.5); lra.
Qed.

(** X11: on the upstream card a rising trend line ("▲", above 0.05 ft/hr)
    is never green and a falling one ("▼", below -0.05 ft/hr) is always
    green; a line reading "► STABLE" is orange exactly for a trend above
    0.02 and up to 0.05 ft/hr, and green otherwise. *)
Theorem trend_line_and_colour (trend : Q) :
  (String.prefix "▲" (trend_str trend) = true <-> 0.05 < trend)
  /\ (String.prefix "▼" (trend_str trend) = true <-> trend < - 0.05)
  /\ (0.05 < trend ->
      trend_color trend = "#ef5350" \/ trend_color trend = "#ffa726")
  /\ (trend < - 0.05 -> trend_color trend = "#66bb6a")
  /\ (trend_str trend = "► STABLE" ->
      (trend_color trend = "#ffa726" <-> 0.02 < trend)
      /\ (trend_color trend = "#66bb6a" <-> trend <= 0.02)).
Proof.
  unfold trend_str, trend_color.
  destruct (Py.gt trend 0.05) eqn:H1, (Py.lt trend (-0.05)) eqn:H2,
           (Py.gt trend 0.1) eqn:H3, (Py.gt trend 0.02) eqn:H4;
    reflect_cmp; try (exfalso; lra);
    split_iffs; intros;
    first [ reflexivity | discriminate | lra | exfalso; lra
          | left; reflexivity | right; reflexivity
          | split_iffs; intros;
            first [reflexivity | discriminate | lra | exfalso; lra] ].
Qed.

(** ** Water temperature for the species advice *)

(** X10: the temperature behind the species advice never fails, and, [or]
    binding weaker than [+], it is not the mean: with both river
    temperatures present and non-zero it is half the Monongahela's; the
    Allegheny's is used, undivided, only when the Monongahela's is absent or
    zero; it is absent when both are absent or zero.  Both rivers at 20 C
    (68 F) thus get the advice for 50 F. *)
Theorem avg_temp_is_half_monongahela (s : snapshot) :
  let mon := temp_c (default no_data (current_data s !! "Monongahela")) in
  let alg := temp_c (default no_data (current_data s !! "Allegheny")) in
  (exists r, avg_temp_c s = Ok r)
  /\ (forall m a,
         mon = Some m -> alg = Some a -> ~ m == 0 -> ~ a == 0 ->
         avg_temp_c s = Ok (Some (m / 2)))
  /\ (forall m, mon = Some m -> ~ m == 0 -> Py.truthy alg = false ->
                avg_temp_c s = Ok (Some (m / 1)))
  /\ (forall a, Py.truthy mon = false -> alg = Some a -> ~ a == 0 ->
                avg_temp_c s = Ok (Some ((0 + a) / 1)))
  /\ (Py.truthy mon = false -> Py.truthy alg = false ->
      avg_temp_c s = Ok None)
  /\ (exists c, avg_temp_c (both_temps 20) = Ok (Some c) /\ c == 10)
  /\ (exists f, avg_temp_f (both_temps 20) = Ok (Some f) /\ f == 50)
  /\ species_advice (both_temps 20)
     = Ok ["Smallmouth Bass"; "Walleye"; "White Bass"].
Proof.
  cbn zeta. unfold avg_temp_c.
  set (mon := temp_c (default no_data (current_data s !! "Monongahela"))).
  set (alg := temp_c (default no_data (current_data s !! "Allegheny"))).
  repeat apply conj.
  - destruct mon as [m|], alg as [a|]; cbn;
      repeat match goal with
        | |- context [Qeq_bool ?x ?y] => destruct (Qeq_bool x y); cbn
        end; eauto.
  - intros m a -> -> Hm Ha.
    apply truthy_true in Hm, Ha. rewrite Hm, Ha. reflexivity.
  - intros m -> Hm Ha. apply truthy_true in Hm. rewrite Hm, Ha. reflexivity.
  - intros a Hm -> Ha.
    assert (~ 0 + a == 0) as Hsum by (intros E; apply Ha; lra).
    apply truthy_true in Ha, Hsum. rewrite Hm, Ha. cbn [orb andb Py.number Py.bind].
    rewrite Hsum. reflexivity.
  - intros -> ->. reflexivity.
  - eexists. split; vm_compute; reflexivity.
  - eexists. split; vm_compute; reflexivity.
  - vm_compute. reflexivity.
Qed.

(** ** Spark bars *)

Lemma py_min_list_le_acc (t : list Q) (m : Q) : py_min_list m t <= m.
Proof.
  revert m. induction t as [|v t IH]; intros m; cbn; [lra|].
  destruct (Py.lt v m) eqn:H; reflect_cmp.
  - specialize (IH v). fold (py_min_list v t). lra.
  - apply IH.
Qed.

Lemma py_min_list_le_in (t : list Q) (m v : Q) :
  In v t -> py_min_list m t <= v.
Proof.
  revert m. induction t as [|w t IH]; intros m Hin; [destruct Hin|].
  destruct Hin as [<- | Hin]; cbn.
  - destruct (Py.lt w m) eqn:H; reflect_cmp.
    + apply py_min_list_le_acc.
    + pose proof (py_min_list_le_acc t m). fold (py_min_list m t). lra.
  - apply IH, Hin.
Qed.

Lemma py_max_list_ge_acc (t : list Q) (m : Q) : m <= py_max_list m t.
Proof.
  revert m. induction t as [|v t IH]; intros m; cbn; [lra|].
  destruct (Py.gt v m) eqn:H; reflect_cmp.
  - specialize (IH v). fold (py_max_list v t). lra.
  - apply IH.
Qed.

Lemma py_max_list_ge_in (t : list Q) (m v : Q) :
  In v t -> v <= py_max_list m t.
Proof.
  revert m. induction t as [|w t IH]; intros m Hin; [destruct Hin|].
  destruct Hin as [<- | Hin]; cbn.
  - destruct (Py.gt w m) eqn:H; reflect_cmp.
    + apply py_max_list_ge_acc.
    + pose proof (py_max_list_ge_acc t m). fold (py_max_list m t). lra.
  - apply IH, Hin.
Qed.

Lemma spark_rng_positive (mn mx : Q) :
  mn <= mx ->
  0 < spark_rng mn mx
  /\ (~ mx == mn -> spark_rng mn mx == mx - mn)
  /\ (mx == mn -> spark_rng mn mx == 1).
Proof.
  intros Hle. unfold spark_rng.
  destruct (Py.truthy (Some (mx - mn))) eqn:H; reflect_cmp.
  - split_iffs; intros; lra.
  - split_iffs; intros; lra.
Qed.

(** X16: for a non-empty trend the spark bars never divide by zero
    ([rng] is positive, 1 when all values are equal) and every bar is
    between 8 % and 100 % high; when the values are not all equal the
    highest value gets a 100 % bar and the lowest an 8 % bar. *)
Theorem sparkbars_heights_bounded (h : Q) (t : list Q) (v : Q) :
  In v (h :: t) ->
  let mn := py_min_list h t in
  let mx := py_max_list h t in
  let rng := spark_rng mn mx in
  0 < rng
  /\ 8 <= spark_height mn rng v <= 100
  /\ (~ mx == mn ->
      spark_height mn rng mx == 100 /\ spark_height mn rng mn == 8).
Proof.
  intros Hin mn mx rng.
  assert (mn <= v /\ v <= mx) as [Hlo Hhi].
  { destruct Hin as [<- | Hin].
    - split; [apply py_min_list_le_acc | apply py_max_list_ge_acc].
    - split; [apply py_min_list_le_in | apply py_max_list_ge_in]; exact Hin. }
  destruct (spark_rng_positive mn mx) as (Hpos & Hne & Heq); [lra|].
  fold rng in Hpos, Hne, Heq.
  split; [exact Hpos|]. split.
  - unfold spark_height, py_max.
    destruct (Py.gt ((v - mn) / rng * 100) 8) eqn:H; reflect_cmp;
      [|split; lra].
    split; [lra|].
    assert ((v - mn) / rng <= 1); [|lra].
    apply Qle_shift_div_r; [exact Hpos|].
    destruct (Qeq_dec mx mn) as [E | E]; [rewrite (Heq E) | rewrite (Hne E)];
      lra.
  - intros E. specialize (Hne E). unfold spark_height, py_max. split.
    + assert ((mx - mn) / rng == 1) as E1 by (rewrite Hne; field; lra).
      destruct (Py.gt ((mx - mn) / rng * 100) 8) eqn:H; reflect_cmp;
        rewrite E1 in *; lra.
    + assert ((mn - mn) / rng == 0) as E0 by (field; lra).
      destruct (Py.gt ((mn - mn) / rng * 100) 8) eqn:H; reflect_cmp;
        rewrite E0 in *; lra.
Qed.

Lemma sparkbars_heights_bounded_witness :
  0 < spark_rng (py_min_list 12.0 [12.4; 13.1]) (py_max_list 12.0 [12.4; 13.1])
  /\ 8 <= spark_height (py_min_list 12.0 [12.4; 13.1])
            (spark_rng (py_min_list 12.0 [12.4; 13.1])
               (py_max_list 12.0 [12.4; 13.1])) 12.4 <= 100
  /\ (~ py_max_list 12.0 [12.4; 13.1] == py_min_list 12.0 [12.4; 13.1] ->
      spark_height (py_min_list 12.0 [12.4; 13.1])
        (spark_rng (py_min_list 12.0 [12.4; 13.1])
           (py_max_list 12.0 [12.4; 13.1]))
        (py_max_list 12.0 [12.4; 13.1]) == 100
      /\ spark_height (py_min_list 12.0 [12.4; 13.1])
           (spark_rng (py_min_list 12.0 [12.4; 13.1])
              (py_max_list 12.0 [12.4; 13.1]))
           (py_min_list 12.0 [12.4; 13.1]) == 8).
Proof.
  apply (sparkbars_heights_bounded 12.0 [12.4; 13.1] 12.4).
  cbn. right. left. reflexivity.
Defined.

(** ** The USGS payload *)

Lemma river_of_site_configured site key :
  river_of_site site = Some key ->
  key <> "" /\ exists cfg, In (key, cfg) RIVERS /\ site_id cfg = site.
Proof.
  unfold river_of_site.
  destruct (List.find (fun rc => String.eqb (site_id (snd rc)) site) RIVERS)
    as [[k cfg]|] eqn:Hfind; [|discriminate].
  intros [= <-]. apply find_some in Hfind as [Hin Heq].
  apply String.eqb_eq in Heq. split; [|eauto].
  destruct Hin as [[= <- <-] | [[= <- <-] | [[= <- <-] | []]]]; discriminate.
Qed.

Section UsgsFacts.

Variable float : string -> option Q.

Lemma usgs_step_skip results series :
  (forall latest, last (series_values series) = Some latest ->
                  value latest = "-999999") ->
  usgs_step float results series = Some results.
Proof.
  intros Hskip. unfold usgs_step.
  destruct (last (series_values series)) as [latest|]; [|reflexivity].
  rewrite (Hskip latest eq_refl). reflexivity.
Qed.

Lemma usgs_step_keys results results' series k :
  usgs_step float results series = Some results' ->
  is_Some (results' !! k) ->
  is_Some (results !! k) \/ exists cfg, In (k, cfg) RIVERS.
Proof.
  unfold usgs_step.
  destruct (last (series_values series)) as [latest|]; [|intros [= <-]; auto].
  destruct (String.eqb (value latest) "-999999"); [intros [= <-]; auto|].
  destruct (river_of_site (series_site series)) as [key|] eqn:Hkey;
    [|intros [= <-]; auto].
  destruct (river_of_site_configured _ _ Hkey) as (_ & cfg & Hcfg & _).
  destruct (String.eqb key ""); [intros [= <-]; auto|].
  assert (forall m : gmap string river_data,
             (forall j, is_Some (m !! j) -> is_Some (results !! j) \/ j = key) ->
             is_Some (m !! k) ->
             is_Some (results !! k) \/ exists cfg, In (k, cfg) RIVERS) as Hm.
  { intros m Hdom Hk. destruct (Hdom k Hk) as [? | ->]; eauto. }
  assert (forall (rd : river_data) (m : gmap string river_data) j,
             (forall j, is_Some (m !! j) -> is_Some (results !! j) \/ j = key) ->
             is_Some (<[key := rd]> m !! j) ->
             is_Some (results !! j) \/ j = key) as Hins.
  { intros rd m j Hdom. destruct (decide (key = j)) as [-> | Hne]; [auto|].
    rewrite lookup_insert_ne by exact Hne. apply Hdom. }
  destruct (String.eqb (series_param series) "00060");
    [|destruct (String.eqb (series_param series) "00065");
      [|destruct (String.eqb (series_param series) "00010")]];
    try destruct (float (value latest)); try discriminate;
    intros [= <-]; apply Hm; intros j;
    repeat (first [apply Hins | intros ? ; apply Hins]); auto.
Qed.

Lemma usgs_loop_failed payload :
  fold_left
    (fun acc series =>
       match acc with
       | Some results => usgs_step float results series
       | None => None
       end)
    payload None = None.
Proof. induction payload as [|series payload IH]; [reflexivity | exact IH]. Qed.

Lemma usgs_loop_keys payload results results' k :
  usgs_loop float payload results = Some results' ->
  is_Some (results' !! k) ->
  is_Some (results !! k) \/ exists cfg, In (k, cfg) RIVERS.
Proof.
  unfold usgs_loop. revert results.
  induction payload as [|series payload IH]; intros results; cbn [fold_left].
  - intros [= <-]. auto.
  - destruct (usgs_step float results series) as [mid|] eqn:Hstep.
    + intros Hloop Hk. destruct (IH mid Hloop Hk) as [Hmid | ?]; [|auto].
      apply (usgs_step_keys _ _ _ _ Hstep Hmid).
    + rewrite usgs_loop_failed. discriminate.
Qed.

(** X17: whatever the payload holds, the only keys of the [current_data]
    read from it are names of configured rivers: a series of any other
    site leaves no trace. *)
Theorem usgs_keys_are_rivers (payload : list usgs_series) (k : string) :
  is_Some (usgs_current_data float payload !! k) ->
  exists cfg, In (k, cfg) RIVERS.
Proof.
  unfold usgs_current_data.
  destruct (usgs_loop float payload ∅) as [results|] eqn:Hloop; cbn [default].
  - intros Hk. destruct (usgs_loop_keys _ _ _ _ Hloop Hk) as [Hempty | ?];
      [|assumption].
    rewrite lookup_empty in Hempty. destruct Hempty as [? [=]].
  - rewrite lookup_empty. intros [? [=]].
Qed.

(** X18: a series whose latest sample is the USGS "no data" mark
    "-999999", or that has no samples, changes nothing, whatever its site
    and parameter and without its value being parsed; a payload made only
    of such series yields an empty [current_data] and no error. *)
Theorem usgs_sentinel_skipped (payload : list usgs_series) :
  (forall series latest,
      In series payload ->
      last (series_values series) = Some latest ->
      value latest = "-999999") ->
  (forall results, usgs_loop float payload results = Some results)
  /\ usgs_current_data float payload = ∅.
Proof.
  intros Hskip.
  assert (forall results, usgs_loop float payload results = Some results)
    as Hloop.
  { unfold usgs_loop. induction payload as [|series payload IH];
      intros results; cbn [fold_left]; [reflexivity|].
    rewrite usgs_step_skip by (intros latest; apply Hskip; left; reflexivity).
    apply IH. intros s l Hin. apply Hskip. right. exact Hin. }
  split; [exact Hloop|]. unfold usgs_current_data. rewrite Hloop. reflexivity.
Qed.

(** X19: one unparsable value blanks everything: if any series of a
    configured site with one of the three known parameters has a latest
    sample that is not the "no data" mark and that [float] rejects, the
    whole fetch fails and [current_data] is empty, whatever the other
    series hold. *)
Theorem usgs_bad_value_blanks_all (payload : list usgs_series)
    (series : usgs_series) (latest : usgs_sample) (key : string) :
  In series payload ->
  last (series_values series) = Some latest ->
  value latest <> "-999999" ->
  river_of_site (series_site series) = Some key ->
  known_param (series_param series) ->
  float (value latest) = None ->
  usgs_loop float payload ∅ = None
  /\ usgs_current_data float payload = ∅.
Proof.
  intros Hin Hlast Hmark Hkey Hparam Hfloat.
  assert (forall results, usgs_step float results series = None) as Hstep.
  { intros results. unfold usgs_step. rewrite Hlast.
    apply String.eqb_neq in Hmark. rewrite Hmark, Hkey.
    destruct (river_of_site_configured _ _ Hkey) as (Hne & _).
    apply String.eqb_neq in Hne. rewrite Hne, Hfloat.
    destruct Hparam as [-> | [-> | ->]]; reflexivity. }
  assert (forall results, usgs_loop float payload results = None) as Hloop.
  { unfold usgs_loop. induction payload as [|s0 payload IH];
      intros results; [destruct Hin|]. cbn [fold_left].
    destruct Hin as [-> | Hin].
    - rewrite Hstep. apply usgs_loop_failed.
    - destruct (usgs_step float results s0); [apply IH, Hin|].
      apply usgs_loop_failed. }
  split; [apply Hloop|]. unfold usgs_current_data. rewrite Hloop. reflexivity.
Qed.

(** X20: a gauge-height series (parameter 00065) of a configured site
    whose latest sample parses to [v] stores [v] as that river's
    [gauge_ft] and the sample's time as its [timestamp], keeps the river's
    flow and temperature, and leaves every other river as it was. *)
Theorem usgs_gauge_stored (results : gmap string river_data)
    (series : usgs_series) (latest : usgs_sample) (key : string) (v : Q) :
  last (series_values series) = Some latest ->
  value latest <> "-999999" ->
  river_of_site (series_site series) = Some key ->
  series_param series = "00065" ->
  float (value latest) = Some v ->
  exists results' rd,
    usgs_step float results series = Some results'
    /\ results' !! key = Some rd
    /\ gauge_ft rd = Some v
    /\ timestamp rd = Some (dateTime latest)
    /\ flow_cfs rd = flow_cfs (default no_data (results !! key))
    /\ temp_c rd = temp_c (default no_data (results !! key))
    /\ forall other, other <> key -> results' !! other = results !! other.
Proof.
  intros Hlast Hmark Hkey Hparam Hfloat.
  destruct (river_of_site_configured _ _ Hkey) as (Hne & _).
  apply String.eqb_neq in Hmark, Hne.
  unfold usgs_step. rewrite Hlast, Hmark, Hkey, Hne, Hparam, Hfloat.
  cbn [String.eqb Ascii.eqb Bool.eqb].
  eexists. eexists. split; [reflexivity|].
  rewrite lookup_insert_eq. repeat apply conj; try reflexivity.
  intros other Hother. rewrite !lookup_insert_ne by congruence. reflexivity.
Qed.

End UsgsFacts.

Lemma usgs_keys_are_rivers_witness : exists cfg, In ("Ohio", cfg) RIVERS.
Proof.
  apply (usgs_keys_are_rivers sample_float
           [no_data_series; ohio_gauge_series] "Ohio").
  vm_compute. eexists. reflexivity.
Defined.

Lemma usgs_sentinel_skipped_witness :
  (forall results,
      usgs_loop sample_float [no_data_series] results = Some results)
  /\ usgs_current_data sample_float [no_data_series] = ∅.
Proof.
  apply (usgs_sentinel_skipped sample_float [no_data_series]).
  intros series latest [<- | []] [= <-]. reflexivity.
Defined.

Lemma usgs_bad_value_blanks_all_witness :
  usgs_loop sample_float [ohio_gauge_series; bad_temp_series] ∅ = None
  /\ usgs_current_data sample_float [ohio_gauge_series; bad_temp_series] = ∅.
Proof.
  apply (usgs_bad_value_blanks_all sample_float
           [ohio_gauge_series; bad_temp_series] bad_temp_series
           {| dateTime := "2024-04-12T08:15:00.000-04:00"; value := "Ice" |}
           "Allegheny").
  - cbn. right. left. reflexivity.
  - reflexivity.
  - discriminate.
  - reflexivity.
  - right. right. reflexivity.
  - reflexivity.
Defined.

Lemma usgs_gauge_stored_witness :
  exists results' rd,
    usgs_step sample_float ∅ ohio_gauge_series = Some results'
    /\ results' !! "Ohio" = Some rd
    /\ gauge_ft rd = Some 24.10
    /\ timestamp rd = Some "2024-04-12T08:15:00.000-04:00"
    /\ flow_cfs rd
       = flow_cfs (default no_data ((∅ : gmap string river_data) !! "Ohio"))
    /\ temp_c rd
       = temp_c (default no_data ((∅ : gmap string river_data) !! "Ohio"))
    /\ forall other,
        other <> "Ohio" ->
        results' !! other = (∅ : gmap string river_data) !! other.
Proof.
  apply (usgs_gauge_stored sample_float ∅ ohio_gauge_series
           {| dateTime := "2024-04-12T08:15:00.000-04:00"; value := "24.10" |}
           "Ohio" 24.10).
  - reflexivity.
  - discriminate.
  - reflexivity.
  - reflexivity.
  - reflexivity.
Defined.

(** ** Losing an input *)

Lemma absent_lists_subset f r s :
  (forall m, In m (issues_from r (absent f s)) -> In m (issues_from r s))
  /\ (forall m, In m (warnings_from r (absent f s))
                -> In m (warnings_from r s)).
Proof.
  destruct (reads r f) eqn:Hreads.
  - destruct r as [[river cfg]| | | | | |], f; try discriminate.
    + cbn [reads fst] in Hreads. apply String.eqb_eq in Hreads. subst river0.
      destruct (stage_lists_silent (absent (Gauge river) s) (river, cfg))
        as [-> ->]; [|split; intros m []].
      cbn [fst absent current_data]. rewrite lookup_alter_eq.
      destruct (current_data s !! river); reflexivity.
    + unfold issues_from, warnings_from. cbn [run].
      rewrite alert_rule_silent by reflexivity. split; intros m [].
    + destruct (wind_lists_silent (absent WindSpeed s) eq_refl) as [-> ->].
      split; intros m [].
    + destruct (precip_lists_eval (absent PrecipProb s)) as [-> ->].
      destruct (precip_lists_eval s) as [-> ->].
      split; [intros m []|]. cbn [absent precip_prob_today precip_sum_today
                                  Py.or_zero].
      replace (Py.gt 0 70) with false by reflexivity. cbn [orb].
      destruct (Py.gt (Py.or_zero (precip_sum_today s)) 0.5);
        [rewrite orb_true_r; auto | intros m []].
    + destruct (precip_lists_eval (absent PrecipSum s)) as [-> ->].
      destruct (precip_lists_eval s) as [-> ->].
      split; [intros m []|]. cbn [absent precip_prob_today precip_sum_today
                                  Py.or_zero].
      replace (Py.gt 0 0.5) with false by reflexivity. rewrite orb_false_r.
      destruct (Py.gt (Py.or_zero (precip_prob_today s)) 70);
        [auto | intros m []].
    + destruct (aqi_lists_eval (absent Aqi s)) as [-> ->].
      split; intros m [].
    + destruct (fog_lists_silent (absent Visibility s) eq_refl) as [-> ->].
      split; intros m [].
    + destruct (storm_lists_eval (absent WeatherCode s)) as [-> ->].
      split; intros m [].
  - destruct (lists_from_ext r (absent f s) s) as [-> ->]; [|auto].
    intros st. apply run_absent_other, Hreads.
Qed.

(** X21: losing an input never makes the verdict worse: with any one
    optional input made absent, every issue and every warning of the new
    score was already in the old one, and the new verdict is no more severe
    than the old. *)
Theorem absent_input_never_escalates (f : field) (s : snapshot) :
  exists sc sc',
    composite_score s = Ok sc
    /\ composite_score (absent f s) = Ok sc'
    /\ (forall m, In m (score_issues sc') -> In m (score_issues sc))
    /\ (forall m, In m (score_warnings sc') -> In m (score_warnings sc))
    /\ le (verdict_rank (score_label sc')) (verdict_rank (score_label sc)).
Proof.
  rewrite !composite_score_unfold. eexists. eexists.
  split; [reflexivity|]. split; [reflexivity|].
  assert (forall m, In m (all_issues (absent f s)) -> In m (all_issues s))
    as Hi.
  { intros m Hm. apply in_all_issues in Hm as (r & Hr & Hm).
    apply in_all_issues. exists r. split; [exact Hr|].
    apply (absent_lists_subset f r s), Hm. }
  assert (forall m, In m (all_warnings (absent f s)) -> In m (all_warnings s))
    as Hw.
  { intros m Hm. apply in_all_warnings in Hm as (r & Hr & Hm).
    apply in_all_warnings. exists r. split; [exact Hr|].
    apply (absent_lists_subset f r s), Hm. }
  destruct (all_issues s) as [|i issues],
           (all_warnings s) as [|w warnings],
           (all_issues (absent f s)) as [|i' issues'],
           (all_warnings (absent f s)) as [|w' warnings'];
    cbn [verdict score_issues score_warnings score_label];
    repeat apply conj; try assumption; try (cbn; lia);
    exfalso;
    first [ apply (Hi i'); left; reflexivity
          | apply (Hw w'); left; reflexivity ].
Qed.
